(** * A shallow embedding of the dynamic schema extractor (app/utils.py,
      app/services.py, app/main.py, app/models.py)

    The generator of pydantic model programs, the sanitizer of enum member
    names, the escaping of descriptions, and the schema and extraction
    services over an explicit world (schema directory, [sys.modules], module
    objects, calls made to the extraction library). *)

From Stdlib Require Import String Ascii NArith List Bool Lia.
From stdpp Require Import base option list gmap.

Set Warnings "-register-all".

Local Open Scope N_scope.

(** ** Python strings

    A Python [str] is a sequence of Unicode code points.  Code points are kept
    as numbers, so that [str.upper] and the character classes of [re] can be
    written as they act on them. *)

Abbreviation pystr := (list N).

(** The code points of an ASCII literal of the source. *)
Definition py (s : string) : pystr :=
  map N_of_ascii (list_ascii_of_string s).

Module Chr.
Definition TAB : N := 9.
Definition LF : N := 10.
Definition CR : N := 13.
Definition DQUOTE : N := 34.
Definition SQUOTE : N := 39.
Definition MINUS : N := 45.
Definition BACKSLASH : N := 92.
Definition UNDERSCORE : N := 95.

Definition is_upper (c : N) : bool := (65 <=? c) && (c <=? 90).
Definition is_lower (c : N) : bool := (97 <=? c) && (c <=? 122).
Definition is_digit (c : N) : bool := (48 <=? c) && (c <=? 57).
Definition is_ascii (c : N) : bool := c <? 128.

Definition DOT : N := 46.
Definition SLASH : N := 47.

(** A character that a program text can hold: a Unicode scalar value other
    than U+0000.  Python refuses a source that holds a null character, and
    cannot encode a surrogate. *)
Definition is_source_char (c : N) : bool :=
  (0 <? c) && (c <=? 1114111) && negb ((55296 <=? c) && (c <=? 57343)).
End Chr.

(** What the Unicode character database decides for code points outside
    ASCII: the full upper-case mapping of a code point, [str.lower] on a whole
    string, and the identifier classes XID_Start and XID_Continue. *)
Class UnicodeData := {
  unicode_upper : N → pystr;
  unicode_lower : pystr → pystr;
  xid_start : N → bool;
  xid_continue : N → bool
}.

(** The tables restricted to Latin-1, enough to run the examples: a-grave to
    thorn have their capital 32 below, sharp s becomes SS, y-diaeresis and the
    micro sign leave Latin-1; the letters of Latin-1 are identifier
    characters. *)
Definition latin1_upper (c : N) : pystr :=
  if c =? 223 then [83; 83]
  else if c =? 255 then [376]
  else if c =? 181 then [924]
  else if (224 <=? c) && (c <=? 254) && negb (c =? 247) then [c - 32]
  else [c].

Definition latin1_letter (c : N) : bool :=
  (c =? 170) || (c =? 181) || (c =? 186)
  || ((192 <=? c) && (c <=? 255) && negb (c =? 215) && negb (c =? 247)).

Definition ascii_lower_char (c : N) : N :=
  if Chr.is_upper c then c + 32 else c.

Definition latin1_unicode : UnicodeData := {|
  unicode_upper := latin1_upper;
  unicode_lower := map ascii_lower_char;
  xid_start := latin1_letter;
  xid_continue := fun c => latin1_letter c || (c =? 183)
|}.

Module Str.

(** [a == b] on strings. *)
Fixpoint eqb (a b : pystr) : bool :=
  match a, b with
  | [], [] => true
  | c :: a', d :: b' => (c =? d) && eqb a' b'
  | _, _ => false
  end.

(** [s.replace(old, new)] for a one-character [old], the only form the
    source uses. *)
Fixpoint replace (old : N) (new : pystr) (s : pystr) : pystr :=
  match s with
  | [] => []
  | c :: s' => (if c =? old then new else [c]) ++ replace old new s'
  end.

(** [sep.join(parts)] *)
Fixpoint join (sep : pystr) (parts : list pystr) : pystr :=
  match parts with
  | [] => []
  | [p] => p
  | p :: ps => p ++ sep ++ join sep ps
  end.

(** The string without its leading run of [c]. *)
Fixpoint drop_leading (c : N) (s : pystr) : pystr :=
  match s with
  | [] => []
  | d :: s' => if d =? c then drop_leading c s' else s
  end.

(** [s.rstrip(c)] for a one-character [c]. *)
Definition rstrip (c : N) (s : pystr) : pystr :=
  rev (drop_leading c (rev s)).

(** [s.split(sep)] for a one-character [sep]; [cur] holds the part being
    read, backwards. *)
Fixpoint split_from (sep : N) (cur : pystr) (s : pystr) : list pystr :=
  match s with
  | [] => [rev cur]
  | c :: s' =>
      if c =? sep then rev cur :: split_from sep [] s'
      else split_from sep (c :: cur) s'
  end.

Definition split (sep : N) (s : pystr) : list pystr := split_from sep [] s.

(** The text before the first [sep] and the text after it, if [sep] occurs. *)
Fixpoint partition (sep : N) (s : pystr) : option (pystr * pystr) :=
  match s with
  | [] => None
  | c :: s' =>
      if c =? sep then Some ([], s')
      else match partition sep s' with
           | Some (before, after) => Some (c :: before, after)
           | None => None
           end
  end.

(** [s.rpartition(sep)] for a one-character [sep]: the text before the last
    [sep], the separator and the text after it; without a [sep], two empty
    texts and [s]. *)
Definition rpartition (sep : N) (s : pystr) : pystr * pystr * pystr :=
  match partition sep (rev s) with
  | Some (after, before) => (rev before, [sep], rev after)
  | None => ([], [], s)
  end.

Fixpoint startswith (s p : pystr) : bool :=
  match p, s with
  | [], _ => true
  | _ :: _, [] => false
  | a :: p', b :: s' => (a =? b) && startswith s' p'
  end.

(** [needle in s] *)
Fixpoint contains (needle s : pystr) : bool :=
  startswith s needle
  || match s with
     | [] => false
     | _ :: s' => contains needle s'
     end.

Section WithUnicode.
Context `{UnicodeData}.

Definition upper_char (c : N) : pystr :=
  if Chr.is_lower c then [c - 32]
  else if Chr.is_ascii c then [c]
  else unicode_upper c.

(** [s.upper()] *)
Definition upper (s : pystr) : pystr := flat_map upper_char s.

(** [s.lower()] *)
Definition lower (s : pystr) : pystr := unicode_lower s.

Definition identifier_start (c : N) : bool :=
  if Chr.is_ascii c
  then Chr.is_upper c || Chr.is_lower c || (c =? Chr.UNDERSCORE)
  else xid_start c.

Definition identifier_continue (c : N) : bool :=
  if Chr.is_ascii c
  then Chr.is_upper c || Chr.is_lower c || Chr.is_digit c
       || (c =? Chr.UNDERSCORE)
  else xid_continue c.

(** [s.isidentifier()] *)
Definition isidentifier (s : pystr) : bool :=
  match s with
  | [] => false
  | c :: s' => identifier_start c && forallb identifier_continue s'
  end.

End WithUnicode.
End Str.

(** The two patterns the source hands to [re.sub]. *)
Module Re.

(** [re.sub(r'[^A-Z0-9]', repl, s)] for a one-character [repl]: every code
    point outside the two ranges is replaced. *)
Definition sub_not_upper_digit (repl : N) (s : pystr) : pystr :=
  map (fun c => if Chr.is_upper c || Chr.is_digit c then c else repl) s.

(** [re.sub(r'_+', '_', s)], for the character [c] in place of the
    underscore: a [c] followed by another [c] belongs to a run whose last
    character stands for the whole run. *)
Fixpoint sub_runs (c : N) (s : pystr) : pystr :=
  match s with
  | [] => []
  | d :: s' =>
      match s' with
      | e :: _ => if (d =? c) && (e =? c) then sub_runs c s'
                  else d :: sub_runs c s'
      | [] => [d]
      end
  end.

End Re.

(** ** Reading a string literal

    How the Python lexer reads the body of a short string literal delimited by
    [quote]: a backslash takes the next character with it.  The escapes of one
    character are modelled (backslash, either quote, a b f n r t v, a
    backslash before a line feed, and an unknown escape, which keeps its
    backslash); on the numeric and named escapes (an octal digit, x, N, u, U)
    the reading is left undefined.  An unescaped delimiter or line end inside
    the body, or a backslash at its end, is a malformed literal, and so is a
    body with a character that no program text can hold. *)
Module Literal.

Definition escape_value (e : N) : option pystr :=
  if e =? Chr.BACKSLASH then Some [Chr.BACKSLASH]
  else if e =? Chr.SQUOTE then Some [Chr.SQUOTE]
  else if e =? Chr.DQUOTE then Some [Chr.DQUOTE]
  else if e =? 97 then Some [7]
  else if e =? 98 then Some [8]
  else if e =? 102 then Some [12]
  else if e =? 110 then Some [Chr.LF]
  else if e =? 114 then Some [Chr.CR]
  else if e =? 116 then Some [Chr.TAB]
  else if e =? 118 then Some [11]
  else if e =? Chr.LF then Some []
  else if (48 <=? e) && (e <=? 55) then None
  else if (e =? 120) || (e =? 78) || (e =? 117) || (e =? 85) then None
  else if e =? Chr.CR then None
  else Some [Chr.BACKSLASH; e].

Fixpoint read (quote : N) (body : pystr) : option pystr :=
  match body with
  | [] => Some []
  | c :: rest =>
      if negb (Chr.is_source_char c) then None
      else if c =? Chr.BACKSLASH then
        match rest with
        | [] => None
        | e :: rest' =>
            if negb (Chr.is_source_char e) then None
            else
              match escape_value e, read quote rest' with
              | Some v, Some s => Some (v ++ s)
              | _, _ => None
              end
        end
      else if (c =? quote) || (c =? Chr.LF) || (c =? Chr.CR) then None
      else option_map (cons c) (read quote rest)
  end.

End Literal.

(** ** app/models.py *)

Inductive SchemaField : Type := mkSchemaField {
  key : pystr;
  type : pystr;
  description : pystr;
  required : bool;
  enum_values : option (list pystr);
  children : option (list SchemaField)
}.

Record SchemaDefinition := {
  def_name : pystr;
  def_description : pystr;
  def_fields : list SchemaField
}.

Record SchemaInfo := {
  info_id : pystr;
  info_name : pystr;
  info_description : pystr;
  info_created_at : pystr
}.

Record ExtractRequest := {
  req_text : pystr;
  req_schema_id : option pystr;
  req_fields : option (list SchemaField);
  req_api_key : pystr
}.

(** Truth value of an [Optional[List[...]]]: [None] and the empty list are
    false. *)
Definition truthy {A} (o : option (list A)) : bool :=
  match o with
  | Some (_ :: _) => true
  | _ => false
  end.

(** Truth value of an [Optional[str]]. *)
Definition truthy_str (o : option pystr) : bool := truthy o.

(** [o or []] *)
Definition or_empty {A} (o : option (list A)) : list A :=
  match o with
  | Some l => l
  | None => []
  end.

(** ** app/utils.py *)

Definition TYPE_MAPPING : list (pystr * pystr) :=
  [ (py "string", py "str");
    (py "int", py "int");
    (py "boolean", py "bool");
    (py "float", py "float");
    (py "object", py "object");
    (py "array", py "array") ].

(** [d.get(k, default)] *)
Fixpoint dict_get (d : list (pystr * pystr)) (k default : pystr) : pystr :=
  match d with
  | [] => default
  | (k', v) :: d' => if Str.eqb k' k then v else dict_get d' k default
  end.

Definition IMPORTS_TEMPLATE : pystr :=
  py "from enum import Enum" ++ [Chr.LF]
  ++ py "from typing import List, Optional" ++ [Chr.LF]
  ++ py "from pydantic import BaseModel, Field" ++ [Chr.LF].

Record ModelComponent := {
  name : pystr;
  code : pystr
}.

Definition escape_description (description : pystr) : pystr :=
  match description with
  | [] => []
  | _ =>
      Str.replace Chr.TAB [Chr.BACKSLASH; 116]
        (Str.replace Chr.CR [Chr.BACKSLASH; 114]
          (Str.replace Chr.LF [Chr.BACKSLASH; 110]
            (Str.replace Chr.DQUOTE [Chr.BACKSLASH; Chr.DQUOTE]
              (Str.replace Chr.BACKSLASH [Chr.BACKSLASH; Chr.BACKSLASH]
                description))))
  end.

Section Generator.
Context `{UnicodeData}.

(** [value] is a [str] already, so the conversion at the head of the source
    does nothing. *)
Definition clean_enum_key (value : pystr) : pystr :=
  let key := py "ENUM_" ++ Str.upper value in
  let key := Re.sub_not_upper_digit Chr.UNDERSCORE key in
  let key := Str.rstrip Chr.UNDERSCORE (Re.sub_runs Chr.UNDERSCORE key) in
  if negb (Str.isidentifier key) then py "ENUM_" ++ key else key.

Definition _get_field_type (field : SchemaField) (parent_name : pystr) : pystr :=
  if truthy (enum_values field) then
    parent_name ++ py "_" ++ key field ++ py "_enum"
  else if Str.eqb (type field) (py "object") then
    parent_name ++ py "_" ++ key field
  else if Str.eqb (type field) (py "array") then
    py "List[" ++ parent_name ++ py "_" ++ key field ++ py "_item]"
  else dict_get TYPE_MAPPING (type field) (py "str").

Definition _generate_field_definition (field : SchemaField) (field_type : pystr)
  : pystr :=
  let field_type :=
    if negb (required field) then py "Optional[" ++ field_type ++ py "]"
    else field_type in
  let escaped_description := escape_description (description field) in
  let default_part :=
    if negb (required field) then py ", default=None" else [] in
  key field ++ py ": " ++ field_type ++ py " = Field("
  ++ py "description=" ++ [Chr.DQUOTE] ++ escaped_description ++ [Chr.DQUOTE]
  ++ default_part ++ py ")".

Definition _get_nested_model_name (field : SchemaField) (parent_name : pystr)
  : pystr :=
  let base_name := parent_name ++ py "_" ++ key field in
  if Str.eqb (type field) (py "array") then base_name ++ py "_item"
  else base_name.

Definition _generate_enum_model (field : SchemaField) (parent_name : pystr)
  : ModelComponent :=
  let enum_name := parent_name ++ py "_" ++ key field ++ py "_enum" in
  let enum_values :=
    map (fun value =>
           py "    " ++ clean_enum_key value ++ py " = '"
           ++ Str.replace Chr.SQUOTE [Chr.BACKSLASH; Chr.SQUOTE] value
           ++ py "'")
        (or_empty (enum_values field)) in
  let enum_code :=
    py "class " ++ enum_name ++ py "(str, Enum):" ++ [Chr.LF]
    ++ Str.join [Chr.LF] enum_values in
  {| name := enum_name; code := enum_code |}.

(** The lines of a class body: one field definition per field, indented. *)
Definition fields_code (fields : list SchemaField) (scope : pystr)
  : list pystr :=
  map (fun field =>
         py "    "
         ++ _generate_field_definition field (_get_field_type field scope))
      fields.

Definition _generate_nested_class (field : SchemaField) (nested_name : pystr)
  : ModelComponent :=
  let class_code :=
    py "class " ++ nested_name ++ py "(BaseModel):" ++ [Chr.LF]
    ++ Str.join [Chr.LF] (fields_code (or_empty (children field)) nested_name) in
  {| name := nested_name; code := class_code |}.

Definition is_composite (field : SchemaField) : bool :=
  Str.eqb (type field) (py "object") || Str.eqb (type field) (py "array").

(** The body of the loop of [_generate_nested_models], for one field. *)
Fixpoint nested_models_of (field : SchemaField) (parent_name : pystr)
  {struct field} : list ModelComponent :=
  (if truthy (enum_values field)
   then [_generate_enum_model field parent_name] else [])
  ++ (if is_composite field && truthy (children field) then
        let nested_name := _get_nested_model_name field parent_name in
        match children field with
        | Some cs => flat_map (fun c => nested_models_of c nested_name) cs
        | None => []
        end
        ++ [_generate_nested_class field nested_name]
      else []).

Definition _generate_nested_models (fields : list SchemaField)
  (parent_name : pystr) : list ModelComponent :=
  flat_map (fun field => nested_models_of field parent_name) fields.

Definition _generate_main_model (schema_fields : list SchemaField)
  (model_name : pystr) : pystr :=
  py "class " ++ model_name ++ py "(BaseModel):" ++ [Chr.LF]
  ++ Str.join [Chr.LF] (fields_code schema_fields model_name).

Definition generate (schema_fields : list SchemaField) (model_name : pystr)
  : pystr :=
  let nested_models := _generate_nested_models schema_fields model_name in
  let main_model := _generate_main_model schema_fields model_name in
  let code_parts :=
    [IMPORTS_TEMPLATE] ++ map code nested_models ++ [main_model] in
  Str.join [Chr.LF; Chr.LF] code_parts.

Definition generate_pydantic_model_code (schema_fields : list SchemaField)
  (model_name : pystr) : pystr :=
  generate schema_fields model_name.

End Generator.

(** ** Paths

    The paths of [pathlib] and of the loader of source files, on a POSIX
    system, as texts. *)
Module Path.

(** The parts of a path text: what stands between its slashes, without the
    empty parts and the single dots. *)
Definition parts (s : pystr) : list pystr :=
  List.filter (fun part => negb (Str.eqb part [] || Str.eqb part [Chr.DOT]))
    (Str.split Chr.SLASH s).

(** The root of a path text: two slashes when it starts with exactly two,
    one when it starts with one or with more than two, none otherwise. *)
Definition root (s : pystr) : pystr :=
  if Str.startswith s [Chr.SLASH; Chr.SLASH; Chr.SLASH] then [Chr.SLASH]
  else if Str.startswith s [Chr.SLASH; Chr.SLASH] then [Chr.SLASH; Chr.SLASH]
  else if Str.startswith s [Chr.SLASH] then [Chr.SLASH]
  else [].

(** [str(PurePosixPath(dir) / rel)]: a rooted [rel] stands alone; the parts
    are joined by single slashes; the path without root and parts is the
    dot. *)
Definition joinpath (dir rel : pystr) : pystr :=
  let '(r, ps) :=
    match root rel with
    | [] => (root dir, parts dir ++ parts rel)
    | r => (r, parts rel)
    end in
  match r, ps with
  | [], [] => [Chr.DOT]
  | _, _ => r ++ Str.join [Chr.SLASH] ps
  end.

(** The [_path_join] of the loader: the parts that are not empty, without
    their trailing slashes, joined by slashes. *)
Definition path_join (path_parts : list pystr) : pystr :=
  Str.join [Chr.SLASH]
    (map (Str.rstrip Chr.SLASH)
       (List.filter (fun part => negb (Str.eqb part [])) path_parts)).

(** [importlib.util.cache_from_source(path)] under the cache tag [tag], with
    no optimization level and no prefix for the cache: beside the source, in
    [__pycache__], the name of the source with the tag in place of its
    extension and [.pyc] after it. *)
Definition cache_from_source (tag : pystr) (path : pystr) : pystr :=
  let '(head, _, tail) :=
    match Str.rpartition Chr.SLASH path with
    | (_, [], _) => ([], [], path)
    | split => split
    end in
  let '(base, sep, rest) := Str.rpartition Chr.DOT tail in
  let almost_filename :=
    (match base with [] => rest | _ => base end) ++ sep ++ tag in
  path_join [head; py "__pycache__"; almost_filename ++ py ".pyc"].

End Path.

(** ** The world of the services

    What a call can raise: the [HTTPException] of fastapi with its status and
    detail, or any other exception of the class [Exception], kept as its
    [str(e)].  What [except Exception] does not catch (a [SystemExit], a
    [KeyboardInterrupt], a [GeneratorExit]) ends the request outside the
    source and has no place here. *)

Inductive exception :=
| HTTPException (status_code : N) (detail : pystr)
| PyError (message : pystr).

Inductive outcome (A : Type) :=
| Returned (a : A)
| Raised (e : exception).

Arguments Returned {A} a.
Arguments Raised {A} e.

(** The Python interpreter and pydantic, as far as the services use them:
    [exec_module text] runs a program in a fresh namespace and gives the names
    bound when it stopped, with the [str(e)] of the exception that stopped it,
    if any;
    [class_name] is [cls.__name__]; [model_json_schema] is the method of that
    name; [cache_tag] is [sys.implementation.cache_tag]; [writes_bytecode text]
    says whether a load of the source [text] from a file leaves its bytecode
    in the cache: the source compiles, and the writing of bytecode is neither
    switched off nor fails.

    A [pyobject] is what an object is made of, not which object it is: every
    run builds its objects anew, and two runs of one text give two classes of
    the same making.  Which object a class is follows from the module object
    it lives in, and the services allot those. *)
Class Interpreter := {
  pyobject : Type;
  exec_module : pystr → gmap pystr pyobject * option pystr;
  class_name : pyobject → pystr;
  model_json_schema : pyobject → outcome pystr;
  cache_tag : pystr;
  writes_bytecode : pystr → bool
}.

(** The extraction library (ChatOpenAI, create_extractor, extractor.invoke and
    model_dump on each response), called with the tool, the tool choice, the
    API key and the message content. *)
Class Extractor `{Interpreter} := {
  extracted : Type;
  invoke : pyobject → pystr → pystr → pystr → outcome (list extracted)
}.

Section Services.
Context `{UnicodeData} `{Interpreter} `{!Extractor}.

(** The schema directory as the service and the loader write it (program
    files, metadata files and bytecode files, by path), the module objects by
    address, [sys.modules], and the calls made to the extraction library (tool
    choice and content).  A metadata file is kept as the record that
    [json.dump] wrote and that [json.load] and [SchemaInfo] read back; a
    bytecode file is kept as the source text whose code it holds, and it is
    valid for a source when that text is the source. *)
Record World := {
  programs : gmap pystr pystr;
  metadata : gmap pystr SchemaInfo;
  bytecode : gmap pystr pystr;
  modules : gmap nat (gmap pystr pyobject);
  sys_modules : gmap pystr nat;
  llm_calls : list (pystr * pystr)
}.

Definition SCHEMAS_DIR : pystr := py "schema_models".

(** [str(SCHEMAS_DIR / f"{schema_id}.py")] *)
Definition schema_path_of (schema_id : pystr) : pystr :=
  Path.joinpath SCHEMAS_DIR (schema_id ++ py ".py").

(** [str(SCHEMAS_DIR / f"{schema_id}.meta.json")] *)
Definition metadata_path_of (schema_id : pystr) : pystr :=
  Path.joinpath SCHEMAS_DIR (schema_id ++ py ".meta.json").

(** The bytecode file of the program of a schema,
    [cache_from_source(schema_path)].  The loader makes the path of the
    program absolute before it derives this one; the paths here stay relative
    to the working directory of the service, as the service writes them. *)
Definition cache_path_of (schema_id : pystr) : pystr :=
  Path.cache_from_source cache_tag (schema_path_of schema_id).

(** The name of the module of a schema, [f"schema_{schema_id}"]. *)
Definition spec_name_of (schema_id : pystr) : pystr :=
  py "schema_" ++ schema_id.

(** The root type name, as both [create_schema] and [load_schema_model] build
    it: [f"{name}_{schema_id.replace('-', '_')}"]. *)
Definition root_name (name schema_id : pystr) : pystr :=
  name ++ py "_" ++ Str.replace Chr.MINUS [Chr.UNDERSCORE] schema_id.

(** A new module object: an address no module object has. *)
Definition new_module (w : World) : nat := fresh (dom (modules w)).

(** The message of the [AttributeError] of a module. *)
Definition attribute_error (module_name attr : pystr) : pystr :=
  py "module '" ++ module_name ++ py "' has no attribute '" ++ attr ++ py "'".

(** [SchemaService.create_schema].  [uuid] is the value of
    [str(uuid.uuid4())] in this call and [now] that of
    [str(datetime.now(UTC))].  Nothing in the body raises once the two files
    can be written, so its handler is not reached. *)
Definition create_schema (uuid now : pystr) (request : SchemaDefinition)
  (w : World) : outcome pystr * World :=
  let schema_id := uuid in
  let model_name := root_name (def_name request) schema_id in
  let model_code :=
    generate_pydantic_model_code (def_fields request) model_name in
  let metadata' := {| info_id := schema_id;
                      info_name := def_name request;
                      info_description := def_description request;
                      info_created_at := now |} in
  (Returned schema_id,
   {| programs := <[schema_path_of schema_id := model_code]> (programs w);
      metadata := <[metadata_path_of schema_id := metadata']> (metadata w);
      bytecode := bytecode w;
      modules := modules w;
      sys_modules := sys_modules w;
      llm_calls := llm_calls w |}).

(** [SchemaService.load_schema_model].  The path ends in [.py], so
    [spec_from_file_location] finds the loader of source files and the
    [ImportError] of the source is not raised; whatever the [try] raises
    becomes the HTTP exception 500.  The loader compiles the source before it
    runs it and leaves the bytecode in the cache beside the program. *)
Definition load_schema_model (schema_id : pystr) (w : World)
  : outcome (pyobject * SchemaInfo) * World :=
  match programs w !! schema_path_of schema_id,
        metadata w !! metadata_path_of schema_id with
  | Some text, Some metadata' =>
      let spec_name := spec_name_of schema_id in
      let module := new_module w in
      let '(namespace, stopped) := exec_module text in
      let bytecode' :=
        if writes_bytecode text
        then <[cache_path_of schema_id := text]> (bytecode w)
        else bytecode w in
      let w' := {| programs := programs w;
                   metadata := metadata w;
                   bytecode := bytecode';
                   modules := <[module := namespace]> (modules w);
                   sys_modules := <[spec_name := module]> (sys_modules w);
                   llm_calls := llm_calls w |} in
      let model_name := root_name (info_name metadata') schema_id in
      let failed message :=
        (Raised (HTTPException 500 (py "Error loading schema: " ++ message)),
         w') in
      match stopped with
      | Some message => failed message
      | None =>
          match namespace !! model_name with
          | Some model_class => (Returned (model_class, metadata'), w')
          | None => failed (attribute_error spec_name model_name)
          end
      end
  | _, _ =>
      (Raised (HTTPException 404 (py "Schema not found: " ++ schema_id)), w)
  end.

(** The handlers at the end of [extract_information]. *)
Definition classify (e : exception) : exception :=
  match e with
  | HTTPException _ _ => e
  | PyError message =>
      if Str.contains (py "rate_limit") (Str.lower message) then
        HTTPException 429 (py "Rate limit exceeded")
      else if Str.contains (py "invalid_api_key") (Str.lower message) then
        HTTPException 401 (py "Invalid API key")
      else HTTPException 500 message
  end.

(** The second half of [extract_information]: the call of the extraction
    library with the model found. *)
Definition run_extractor (request : ExtractRequest) (dynamic_model : pyobject)
  (model_name : pystr) (w : World) : outcome (list extracted) * World :=
  let content :=
    py "Extract information from this text according to the schema. "
    ++ py "Do not hallucinate anything:" ++ [Chr.LF; Chr.LF]
    ++ req_text request in
  let w' := {| programs := programs w;
               metadata := metadata w;
               bytecode := bytecode w;
               modules := modules w;
               sys_modules := sys_modules w;
               llm_calls := llm_calls w ++ [(model_name, content)] |} in
  match invoke dynamic_model model_name (req_api_key request) content with
  | Returned responses => (Returned responses, w')
  | Raised e => (Raised (classify e), w')
  end.

(** [ExtractionService.extract_information]; [uuid] as in [create_schema]. *)
Definition extract_information (uuid : pystr) (request : ExtractRequest)
  (w : World) : outcome (list extracted) * World :=
  if truthy_str (req_schema_id request) then
    match load_schema_model (or_empty (req_schema_id request)) w with
    | (Returned (dynamic_model, _), w1) =>
        run_extractor request dynamic_model (class_name dynamic_model) w1
    | (Raised e, w1) => (Raised (classify e), w1)
    end
  else if truthy (req_fields request) then
    let temp_model_name :=
      py "TempModel_" ++ Str.replace Chr.MINUS [Chr.UNDERSCORE] uuid in
    let model_code :=
      generate_pydantic_model_code (or_empty (req_fields request))
        temp_model_name in
    let module := new_module w in
    let '(namespace, stopped) := exec_module model_code in
    let with_module sys_modules' :=
      {| programs := programs w;
         metadata := metadata w;
         bytecode := bytecode w;
         modules := <[module := namespace]> (modules w);
         sys_modules := sys_modules';
         llm_calls := llm_calls w |} in
    match stopped with
    | Some message =>
        (Raised (classify (PyError message)), with_module (sys_modules w))
    | None =>
        let w1 := with_module (<[temp_model_name := module]> (sys_modules w)) in
        match namespace !! temp_model_name with
        | Some dynamic_model =>
            run_extractor request dynamic_model temp_model_name w1
        | None =>
            (Raised (classify (PyError (attribute_error temp_model_name
                                          temp_model_name))),
             w1)
        end
    end
  else
    (Raised (classify (HTTPException 400
               (py "Either schema_id or fields must be provided"))), w).

End Services.

(** ** app/main.py *)

Module Main.
Section Endpoints.
Context `{UnicodeData} `{Interpreter} `{!Extractor}.

(** The class [SchemaService] as services.py defines it: the two static
    methods [create_schema] and [load_schema_model], and no other attribute
    that main.py asks for. *)
Inductive SchemaService_method :=
| method_create_schema
| method_load_schema_model.

Definition SchemaService_dict : list (pystr * SchemaService_method) :=
  [ (py "create_schema", method_create_schema);
    (py "load_schema_model", method_load_schema_model) ].

(** [SchemaService.attr]: the attribute reference, which raises
    [AttributeError] for a name the class does not define. *)
Definition SchemaService_getattr (attr : pystr)
  : outcome SchemaService_method :=
  match List.find (fun entry => Str.eqb (fst entry) attr) SchemaService_dict with
  | Some entry => Returned (snd entry)
  | None =>
      Raised (PyError (py "type object 'SchemaService' has no attribute '"
                       ++ attr ++ py "'"))
  end.

(** What a method of [SchemaService] returns. *)
Inductive service_value :=
| SchemaId (schema_id : pystr)
| LoadedModel (model_class : pyobject) (metadata : SchemaInfo).

(** A method of [SchemaService] called with a schema id as its one argument.
    [create_schema] reads [request.name] of its argument, which a [str] does
    not have, inside its [try]. *)
Definition call_with_id (method : SchemaService_method) (schema_id : pystr)
  (w : World) : outcome service_value * World :=
  match method with
  | method_create_schema =>
      (Raised (HTTPException 500 (py "'str' object has no attribute 'name'")),
       w)
  | method_load_schema_model =>
      match load_schema_model schema_id w with
      | (Returned (model_class, metadata), w') =>
          (Returned (LoadedModel model_class metadata), w')
      | (Raised e, w') => (Raised e, w')
      end
  end.

(** A method of [SchemaService] called with no argument: each of the two
    takes one, so the call raises the [TypeError] of a missing argument before
    the body starts. *)
Definition call_without_arguments (method : SchemaService_method) (w : World)
  : outcome service_value * World :=
  match method with
  | method_create_schema =>
      (Raised (PyError (py "SchemaService.create_schema() missing 1 required "
                        ++ py "positional argument: 'request'")), w)
  | method_load_schema_model =>
      (Raised (PyError (py "SchemaService.load_schema_model() missing 1 "
                        ++ py "required positional argument: 'schema_id'")), w)
  end.

(** [GET /schemas]: [return await SchemaService.list_schemas()]. *)
Definition list_schemas (w : World) : outcome service_value * World :=
  match SchemaService_getattr (py "list_schemas") with
  | Returned method => call_without_arguments method w
  | Raised e => (Raised e, w)
  end.

(** [POST /schemas] *)
Definition create_schema (uuid now : pystr) (request : SchemaDefinition)
  (w : World) : outcome pystr * World :=
  create_schema uuid now request w.

(** [GET /schemas/{schema_id}] *)
Definition get_schema (schema_id : pystr) (w : World)
  : outcome (SchemaInfo * pystr) * World :=
  match load_schema_model schema_id w with
  | (Returned (model_class, metadata), w') =>
      match model_json_schema model_class with
      | Returned schema => (Returned (metadata, schema), w')
      | Raised e => (Raised e, w')
      end
  | (Raised e, w') => (Raised e, w')
  end.

(** [DELETE /schemas/{schema_id}]:
    [return await SchemaService.delete_schema(schema_id)]. *)
Definition delete_schema (schema_id : pystr) (w : World)
  : outcome service_value * World :=
  match SchemaService_getattr (py "delete_schema") with
  | Returned method => call_with_id method schema_id w
  | Raised e => (Raised e, w)
  end.

(** [POST /extract] *)
Definition extract_information (uuid : pystr) (request : ExtractRequest)
  (w : World) : outcome (list extracted) * World :=
  extract_information uuid request w.

End Endpoints.
End Main.

(** ** An interpreter for closed examples

    It reads class headers only: every line [class NAME(...] binds [NAME], and
    no class body is evaluated, so every program runs to its end.  It stands
    in for Python where an example needs some interpreter and its result does
    not depend on which. *)

Fixpoint split_lines (cur : pystr) (s : pystr) : list pystr :=
  match s with
  | [] => [rev cur]
  | c :: s' =>
      if c =? Chr.LF then rev cur :: split_lines [] s'
      else split_lines (c :: cur) s'
  end.

Fixpoint until_paren (s : pystr) : pystr :=
  match s with
  | [] => []
  | c :: s' => if c =? 40 then [] else c :: until_paren s'
  end.

Definition class_header_name (line : pystr) : option pystr :=
  if Str.startswith line (py "class ") then Some (until_paren (drop 6 line))
  else None.

Definition bind_headers (text : pystr) : gmap pystr pystr :=
  foldl (fun namespace line =>
           match class_header_name line with
           | Some n => <[n := n]> namespace
           | None => namespace
           end)
        ∅ (split_lines [] text).

Definition header_interpreter : Interpreter := {|
  pyobject := pystr;
  exec_module := fun text => (bind_headers text, None);
  class_name := fun cls => cls;
  model_json_schema := fun cls => Returned cls;
  cache_tag := py "cpython-312";
  writes_bytecode := fun _ => true
|}.

(** An extraction library that finds nothing. *)
Definition empty_extractor : @Extractor header_interpreter := {|
  extracted := pystr;
  invoke := fun _ _ _ _ => Returned []
|}.

Definition empty_world `{Interpreter} : World := {|
  programs := ∅;
  metadata := ∅;
  bytecode := ∅;
  modules := ∅;
  sys_modules := ∅;
  llm_calls := []
|}.

(** ** Auxiliary definitions of the statements *)

(** The five replacements of [escape_description], read as one pass over the
    description. *)
Definition escape_char (c : N) : pystr :=
  if c =? Chr.BACKSLASH then [Chr.BACKSLASH; Chr.BACKSLASH]
  else if c =? Chr.DQUOTE then [Chr.BACKSLASH; Chr.DQUOTE]
  else if c =? Chr.LF then [Chr.BACKSLASH; 110]
  else if c =? Chr.CR then [Chr.BACKSLASH; 114]
  else if c =? Chr.TAB then [Chr.BACKSLASH; 116]
  else [c].

(** The characters that [re.sub] leaves in an enum key. *)
Definition allowed (c : N) : bool :=
  Chr.is_upper c || Chr.is_digit c || (c =? Chr.UNDERSCORE).

(** The sanitizer of enum members as the specification words it: upper-case
    the input, prefix it with the marker, replace every character outside
    A-Z and 0-9 by an underscore, collapse consecutive underscores into one,
    strip the trailing underscores, and prefix the marker again when the
    result is not an identifier. *)
Module Spec.
Section Sanitizer.
Context `{UnicodeData}.

Definition marker : pystr := py "ENUM_".

Definition outside_upper_digit (c : N) : bool :=
  negb (((65 <=? c) && (c <=? 90)) || ((48 <=? c) && (c <=? 57))).

Definition replace_outside (s : pystr) : pystr :=
  map (fun c => if outside_upper_digit c then Chr.UNDERSCORE else c) s.

(** An underscore is dropped when the text after it starts with one. *)
Definition collapse (s : pystr) : pystr :=
  foldr (fun c acc =>
           match acc with
           | d :: _ =>
               if (c =? Chr.UNDERSCORE) && (d =? Chr.UNDERSCORE) then acc
               else c :: acc
           | [] => [c]
           end) [] s.

(** An underscore is dropped when nothing is left after it. *)
Definition strip_trailing (s : pystr) : pystr :=
  foldr (fun c acc =>
           match acc with
           | [] => if c =? Chr.UNDERSCORE then [] else [c]
           | _ => c :: acc
           end) [] s.

Definition sanitizeEnumMember (raw : pystr) : pystr :=
  let result :=
    strip_trailing (collapse (replace_outside (marker ++ Str.upper raw))) in
  if Str.isidentifier result then result else marker ++ result.

End Sanitizer.
End Spec.

(** The text that the sanitizer leaves after the four letters of the
    marker. *)
Definition sanitized_tail `{UnicodeData} (raw : pystr) : pystr :=
  Spec.strip_trailing
    (Spec.collapse (Chr.UNDERSCORE :: Spec.replace_outside (Str.upper raw))).

(** The synthesized type that the definition of a field names: the enum of a
    field with enum values, the nested class of an object, the item class of
    an array; a scalar names none. *)
Definition referenced_type (field : SchemaField) (scope : pystr)
  : option pystr :=
  if truthy (enum_values field) then
    Some (scope ++ py "_" ++ key field ++ py "_enum")
  else if Str.eqb (type field) (py "object") then
    Some (scope ++ py "_" ++ key field)
  else if Str.eqb (type field) (py "array") then
    Some (scope ++ py "_" ++ key field ++ py "_item")
  else None.

(** ** Inputs of the examples *)

(** [{key: "a", type: "object", description: "d", required: true}] *)
Definition childless_object : SchemaField := {|
  key := py "a"; type := py "object"; description := py "d";
  required := true; enum_values := None; children := None
|}.

(** [{key: "tags", type: "array", description: "d", required: true,
      children: []}] *)
Definition childless_array : SchemaField := {|
  key := py "tags"; type := py "array"; description := py "d";
  required := true; enum_values := None; children := Some []
|}.

(** A string field whose one enum value is the six characters [C:\new]. *)
Definition backslash_enum : SchemaField := {|
  key := py "path"; type := py "string"; description := py "d";
  required := true; enum_values := Some [py "C:\new"]; children := None
|}.

(** A string field whose one enum value is the three characters [C:\]. *)
Definition trailing_backslash_enum : SchemaField := {|
  key := py "dir"; type := py "string"; description := py "d";
  required := true; enum_values := Some [py "C:\"]; children := None
|}.

(** [rows]: an array whose items have an enum field [kind] and an object
    field [at] with the two numbers [x] and [y]. *)
Definition nested_example : SchemaField := {|
  key := py "rows"; type := py "array"; description := py "rows";
  required := false; enum_values := None;
  children := Some
    [ {| key := py "kind"; type := py "string"; description := py "kind";
         required := true; enum_values := Some [py "a"; py "b"];
         children := None |};
      {| key := py "at"; type := py "object"; description := py "place";
         required := false; enum_values := None;
         children := Some
           [ {| key := py "x"; type := py "int"; description := py "x";
                required := true; enum_values := None; children := None |};
             {| key := py "y"; type := py "int"; description := py "y";
                required := true; enum_values := None; children := None |} ]
      |} ]
|}.

Definition example_request (fields : list SchemaField) : SchemaDefinition := {|
  def_name := py "S";
  def_description := py "example";
  def_fields := fields
|}.

Definition example_id : pystr := py "0a-1b".

(** The world after one schema of one required string field [x] was
    created. *)
Definition stored_world : @World header_interpreter :=
  snd (@create_schema latin1_unicode header_interpreter
         example_id (py "2025-01-01")
         (example_request
            [ {| key := py "x"; type := py "string"; description := py "d";
                 required := true; enum_values := None; children := None |} ])
         empty_world).

Definition empty_request : ExtractRequest := {|
  req_text := py "some text";
  req_schema_id := None;
  req_fields := None;
  req_api_key := py "sk-00000000000000000000000000000"
|}.

(** ** The declarations of a generated program

    The components of a program, each with its name and the synthesized types
    that its field definitions name, in the order in which
    [_generate_nested_models] and [generate] emit them. *)

Record declaration := {
  decl_name : pystr;
  decl_refs : list pystr
}.

Definition class_refs (fields : list SchemaField) (scope : pystr)
  : list pystr :=
  omap (fun field => referenced_type field scope) fields.

Section Declarations.
Context `{UnicodeData}.

Fixpoint declarations_of (field : SchemaField) (parent_name : pystr)
  {struct field} : list declaration :=
  (if truthy (enum_values field)
   then [ {| decl_name := name (_generate_enum_model field parent_name);
             decl_refs := [] |} ]
   else [])
  ++ (if is_composite field && truthy (children field) then
        let nested_name := _get_nested_model_name field parent_name in
        match children field with
        | Some cs => flat_map (fun c => declarations_of c nested_name) cs
        | None => []
        end
        ++ [ {| decl_name := name (_generate_nested_class field nested_name);
                decl_refs :=
                  class_refs (or_empty (children field)) nested_name |} ]
      else []).

Definition program_declarations (schema_fields : list SchemaField)
  (model_name : pystr) : list declaration :=
  flat_map (fun field => declarations_of field model_name) schema_fields
  ++ [ {| decl_name := model_name;
          decl_refs := class_refs schema_fields model_name |} ].

End Declarations.

(** Each component is a class statement of the component's name. *)
Definition declares (component : ModelComponent) : Prop :=
  ∃ rest, code component = py "class " ++ name component ++ py "(" ++ rest.

(** Every name a declaration refers to is declared already. *)
Fixpoint well_scoped (declared : gset pystr) (ds : list declaration) : Prop :=
  match ds with
  | [] => True
  | d :: ds' =>
      (∀ r, r ∈ decl_refs d → r ∈ declared)
      ∧ well_scoped ({[decl_name d]} ∪ declared) ds'
  end.

(** The same by positions: a name referred to at position [i] is declared at
    a position before [i]. *)
Definition declared_before (ds : list declaration) : Prop :=
  ∀ i d r, ds !! i = Some d → r ∈ decl_refs d →
    ∃ j d', (j < i)%nat ∧ ds !! j = Some d' ∧ decl_name d' = r.

(** A field that the generator can type: an object or array without enum
    values has children, and so on in the children of every field for which a
    class is emitted. *)
Fixpoint has_children_where_needed (field : SchemaField) : bool :=
  (truthy (enum_values field) || negb (is_composite field)
   || truthy (children field))
  && (if is_composite field && truthy (children field) then
        match children field with
        | Some cs => forallb has_children_where_needed cs
        | None => true
        end
      else true).

(** Induction on a field with the property of its children at hand. *)
Fixpoint SchemaField_nested_ind (P : SchemaField → Prop)
  (step : ∀ k t d r ev ch,
            Forall P (or_empty ch) → P (mkSchemaField k t d r ev ch))
  (field : SchemaField) : P field :=
  match field with
  | mkSchemaField k t d r ev ch =>
      step k t d r ev ch
        (match ch return Forall P (or_empty ch) with
         | Some cs =>
             (fix all (l : list SchemaField) : Forall P l :=
                match l with
                | [] => @List.Forall_nil _ P
                | c :: l' =>
                    @List.Forall_cons _ P c l' (SchemaField_nested_ind P step c) (all l')
                end) cs
         | None => @List.Forall_nil _ P
         end)
  end.

(** ** Further vocabulary of the statements *)

(** A text without a line feed or carriage return. *)
Definition one_line (s : pystr) : Prop :=
  Forall (fun c => c ≠ Chr.LF ∧ c ≠ Chr.CR) s.

(** No two [c] stand next to each other in [s]. *)
Fixpoint no_adjacent (c : N) (s : pystr) : bool :=
  match s with
  | d :: s' =>
      match s' with
      | e :: _ => negb ((d =? c) && (e =? c)) && no_adjacent c s'
      | [] => true
      end
  | [] => true
  end.

(** An ASCII character that is neither a letter nor a digit. *)
Definition ascii_punctuation (c : N) : bool :=
  Chr.is_ascii c
  && negb (Chr.is_upper c || Chr.is_lower c || Chr.is_digit c).

(** An ASCII letter, digit or underscore. *)
Definition ident_char (c : N) : bool :=
  Chr.is_upper c || Chr.is_lower c || Chr.is_digit c || (c =? Chr.UNDERSCORE).

(** The names that [SchemaDefinition.name] admits: the pattern
    [^[a-zA-Z][a-zA-Z0-9_]*$] of models.py, on a name without a line end. *)
Definition name_pattern (schema_name : pystr) : bool :=
  match schema_name with
  | [] => false
  | c :: rest =>
      (Chr.is_upper c || Chr.is_lower c)
      && forallb ident_char rest
  end.

(** The characters of [str(uuid.uuid4())]: the digits, [a] to [f] and the
    hyphen. *)
Definition uuid_char (c : N) : bool :=
  Chr.is_digit c || ((97 <=? c) && (c <=? 102)) || (c =? Chr.MINUS).

(** The request with other inline fields. *)
Definition with_fields (request : ExtractRequest)
  (fields : option (list SchemaField)) : ExtractRequest := {|
  req_text := req_text request;
  req_schema_id := req_schema_id request;
  req_fields := fields;
  req_api_key := req_api_key request
|}.

(** The message content that [extract_information] sends with a text. *)
Definition extraction_prompt (text : pystr) : pystr :=
  py "Extract information from this text according to the schema. "
  ++ py "Do not hallucinate anything:" ++ [Chr.LF; Chr.LF] ++ text.


(** The line of a member of an enum: four spaces, the name of the member and
    its value as a single-quoted literal with the body [body]. *)
Definition enum_member_line (member body : pystr) : pystr :=
  py "    " ++ member ++ py " = '" ++ body ++ py "'".

(** A character that a program text can hold and that is neither a backslash
    nor a line end. *)
Definition plain_char (c : N) : bool :=
  Chr.is_source_char c
  && negb ((c =? Chr.BACKSLASH) || (c =? Chr.LF) || (c =? Chr.CR)).

(** ** Further inputs of the examples *)

(** A string field with the two enum values [it's] and [b]. *)
Definition quoted_enum : SchemaField := {|
  key := py "k"; type := py "string"; description := py "d";
  required := true; enum_values := Some [py "it's"; py "b"]; children := None
|}.

(** One required string field [x]. *)
Definition stored_fields : list SchemaField :=
  [ {| key := py "x"; type := py "string"; description := py "d";
       required := true; enum_values := None; children := None |} ].

Definition inline_request : ExtractRequest := {|
  req_text := py "some text";
  req_schema_id := None;
  req_fields := Some stored_fields;
  req_api_key := py "sk-00000000000000000000000000000"
|}.

Definition stored_request (schema_id : pystr) : ExtractRequest := {|
  req_text := py "some text";
  req_schema_id := Some schema_id;
  req_fields := None;
  req_api_key := py "sk-00000000000000000000000000000"
|}.

Definition other_id : pystr := py "ff-00".

(** An interpreter that stops at once on every program, for the examples of
    failing programs. *)
Definition rejecting_interpreter : Interpreter := {|
  pyobject := pystr;
  exec_module := fun _ => (∅, Some (py "invalid syntax"));
  class_name := fun cls => cls;
  model_json_schema := fun cls => Returned cls;
  cache_tag := py "cpython-312";
  writes_bytecode := fun _ => false
|}.

Definition rejecting_extractor : @Extractor rejecting_interpreter := {|
  extracted := pystr;
  invoke := fun _ _ _ _ => Returned []
|}.

(** A required field of kind [float]. *)
Definition float_field : SchemaField := {|
  key := py "a"; type := py "float"; description := py "d";
  required := true; enum_values := None; children := None
|}.

(** * Properties *)

(** ** Strings *)

Lemma eqb_refl (s : pystr) : Str.eqb s s = true.
Proof. induction s as [|c s IH]; simpl; [done|]. by rewrite N.eqb_refl. Qed.

Lemma eqb_eq (a b : pystr) : Str.eqb a b = true ↔ a = b.
Proof.
  split; [|intros ->; apply eqb_refl].
  revert b; induction a as [|c a IH]; intros [|d b]; simpl; try done.
  intros [Hc Hab]%andb_true_iff. apply N.eqb_eq in Hc. f_equal; auto.
Qed.

Lemma replace_flat_map old new s :
  Str.replace old new s = flat_map (fun c => if c =? old then new else [c]) s.
Proof. induction s as [|c s IH]; simpl; [done|]. by rewrite IH. Qed.

Lemma flat_map_flat_map {A B C} (f : A → list B) (g : B → list C) l :
  flat_map g (flat_map f l) = flat_map (fun a => flat_map g (f a)) l.
Proof.
  induction l as [|a l IH]; simpl; [done|].
  by rewrite flat_map_app, IH.
Qed.

Ltac case_eqb c k :=
  destruct (N.eqb_spec c k) as [->|?]; simpl; try done.

(** ** Escaping of descriptions *)

Lemma escape_description_pass d : escape_description d = flat_map escape_char d.
Proof.
  destruct d as [|c0 d0]; [done|]. unfold escape_description.
  generalize (c0 :: d0) as d. clear. intros d.
  rewrite !replace_flat_map, !flat_map_flat_map.
  apply flat_map_ext. intros c. unfold escape_char.
  case_eqb c Chr.BACKSLASH. case_eqb c Chr.DQUOTE. case_eqb c Chr.LF.
  case_eqb c Chr.CR. case_eqb c Chr.TAB.
  all: repeat match goal with
       | |- context [N.eqb ?a ?b] => destruct (N.eqb_spec a b); simpl; try done
       end.
Qed.





(** The order matters: with the backslash replaced last, the backslash that
    escapes a quote is doubled and the literal ends at the quote. *)
Example backslash_last_breaks :
  Literal.read Chr.DQUOTE
    (Str.replace Chr.BACKSLASH [Chr.BACKSLASH; Chr.BACKSLASH]
      (Str.replace Chr.DQUOTE [Chr.BACKSLASH; Chr.DQUOTE] [Chr.DQUOTE]))
  = None.
Proof. reflexivity. Qed.

(** ** The sanitizer of enum members *)

Lemma sub_not_upper_digit_spec s :
  Re.sub_not_upper_digit Chr.UNDERSCORE s = Spec.replace_outside s.
Proof.
  unfold Re.sub_not_upper_digit, Spec.replace_outside.
  apply map_ext. intros c. unfold Spec.outside_upper_digit, Chr.is_upper, Chr.is_digit.
  by destruct (_ || _).
Qed.

Lemma collapse_cons c s :
  Spec.collapse (c :: s)
  = match Spec.collapse s with
    | d :: _ =>
        if (c =? Chr.UNDERSCORE) && (d =? Chr.UNDERSCORE) then Spec.collapse s
        else c :: Spec.collapse s
    | [] => [c]
    end.
Proof. reflexivity. Qed.

Lemma collapse_head s : head (Spec.collapse s) = head s.
Proof.
  induction s as [|c s IH]; [done|]. rewrite collapse_cons.
  destruct (Spec.collapse s) as [|d acc]; [done|].
  destruct (N.eqb_spec c Chr.UNDERSCORE) as [->|?]; simpl; [|done].
  destruct (N.eqb_spec d Chr.UNDERSCORE) as [->|?]; done.
Qed.

Lemma sub_runs_collapse s : Re.sub_runs Chr.UNDERSCORE s = Spec.collapse s.
Proof.
  induction s as [|c s IH]; [done|].
  rewrite collapse_cons. pose proof (collapse_head s) as Hh.
  simpl. rewrite IH.
  destruct s as [|e s']; [done|].
  destruct (Spec.collapse (e :: s')) as [|d acc]; [done|].
  simpl in Hh. by injection Hh as ->.
Qed.

Lemma drop_leading_snoc u l c :
  Str.drop_leading u (l ++ [c])
  = match Str.drop_leading u l with
    | [] => if c =? u then [] else [c]
    | r => r ++ [c]
    end.
Proof.
  induction l as [|d l IH]; simpl; [done|].
  destruct (d =? u); [done|]. done.
Qed.

Lemma strip_trailing_cons c s :
  Spec.strip_trailing (c :: s)
  = match Spec.strip_trailing s with
    | [] => if c =? Chr.UNDERSCORE then [] else [c]
    | _ :: _ => c :: Spec.strip_trailing s
    end.
Proof. reflexivity. Qed.

Lemma rstrip_strip_trailing s :
  Str.rstrip Chr.UNDERSCORE s = Spec.strip_trailing s.
Proof.
  induction s as [|c s IH]; [done|].
  rewrite strip_trailing_cons, <- IH. unfold Str.rstrip. simpl.
  rewrite drop_leading_snoc.
  destruct (Str.drop_leading _ (rev s)) as [|d r]; simpl.
  - by destruct (c =? _).
  - rewrite rev_app_distr. simpl.
    destruct (rev r ++ [d]) eqn:E; [by destruct (rev r)|done].
Qed.

Lemma collapse_allowed s :
  forallb allowed s = true → forallb allowed (Spec.collapse s) = true.
Proof.
  induction s as [|c s IH]; [done|].
  intros Hall. simpl in Hall. apply andb_true_iff in Hall as [Hc Hs].
  specialize (IH Hs). rewrite collapse_cons.
  destruct (Spec.collapse s) as [|d acc]; [by simpl; rewrite Hc|].
  destruct (_ && _); [done|]. simpl. by rewrite Hc.
Qed.

Lemma strip_trailing_allowed s :
  forallb allowed s = true → forallb allowed (Spec.strip_trailing s) = true.
Proof.
  induction s as [|c s IH]; [done|].
  intros Hall. simpl in Hall. apply andb_true_iff in Hall as [Hc Hs].
  specialize (IH Hs). rewrite strip_trailing_cons.
  destruct (Spec.strip_trailing s) as [|d acc].
  - destruct (c =? _); [done|]. simpl. by rewrite Hc.
  - simpl. by rewrite Hc.
Qed.

Lemma collapse_cons_other c s :
  c ≠ Chr.UNDERSCORE → Spec.collapse (c :: s) = c :: Spec.collapse s.
Proof.
  intros Hc. rewrite collapse_cons.
  destruct (Spec.collapse s); [done|].
  by destruct (N.eqb_spec c Chr.UNDERSCORE).
Qed.

Lemma strip_trailing_cons_other c s :
  c ≠ Chr.UNDERSCORE → Spec.strip_trailing (c :: s) = c :: Spec.strip_trailing s.
Proof.
  intros Hc. rewrite strip_trailing_cons.
  destruct (Spec.strip_trailing s); [|done].
  by destruct (N.eqb_spec c Chr.UNDERSCORE).
Qed.

Lemma replace_outside_allowed s : forallb allowed (Spec.replace_outside s) = true.
Proof.
  apply forallb_forall. intros d [c [<- _]]%in_map_iff.
  unfold allowed, Spec.outside_upper_digit, Chr.is_upper, Chr.is_digit.
  destruct ((65 <=? c) && (c <=? 90) || (48 <=? c) && (c <=? 57)) eqn:E;
    simpl; [by rewrite E|done].
Qed.

Section Sanitizer.
Context `{UnicodeData}.

Lemma allowed_identifier_continue c :
  allowed c = true → Str.identifier_continue c = true.
Proof.
  unfold allowed, Str.identifier_continue, Chr.is_upper, Chr.is_digit,
    Chr.is_lower, Chr.is_ascii, Chr.UNDERSCORE.
  intros Hc.
  assert (c < 128) as Hlt.
  { revert Hc. rewrite !orb_true_iff, !andb_true_iff, !N.leb_le, N.eqb_eq. lia. }
  apply N.ltb_lt in Hlt. rewrite Hlt.
  repeat (apply orb_true_iff in Hc as [Hc|Hc]); rewrite Hc;
    by rewrite ?orb_true_r.
Qed.

Lemma sanitized_shape raw :
  Spec.strip_trailing
    (Spec.collapse (Spec.replace_outside (Spec.marker ++ Str.upper raw)))
  = py "ENUM" ++ sanitized_tail raw.
Proof.
  unfold Spec.replace_outside. rewrite map_app.
  change (map _ Spec.marker) with [69; 78; 85; 77; Chr.UNDERSCORE].
  simpl app.
  rewrite !collapse_cons_other, !strip_trailing_cons_other by done.
  done.
Qed.

Lemma sanitized_identifier raw :
  Str.isidentifier (py "ENUM" ++ sanitized_tail raw) = true.
Proof.
  simpl. apply forallb_forall. intros c Hc.
  apply allowed_identifier_continue.
  assert (forallb allowed (sanitized_tail raw) = true) as Hall.
  { apply strip_trailing_allowed, collapse_allowed. simpl.
    apply replace_outside_allowed. }
  rewrite forallb_forall in Hall. by apply Hall.
Qed.

Lemma clean_enum_key_shape value :
  clean_enum_key value = py "ENUM" ++ sanitized_tail value.
Proof.
  unfold clean_enum_key.
  rewrite sub_not_upper_digit_spec, sub_runs_collapse, rstrip_strip_trailing.
  change (py "ENUM_") with Spec.marker.
  rewrite sanitized_shape, sanitized_identifier. done.
Qed.

End Sanitizer.

(** C8. The sanitizer returns a result for every string, the same for the same
    string; the result is the transform of the specification (upper-case,
    prefix, replace, collapse, strip, prefix again when not an identifier), it
    is not empty and it is an identifier.  So it is for the empty string,
    [3-d], [cafe] with an acute accent and [VALID_NAME]. *)
Theorem clean_enum_key_total `{UnicodeData} :
  (∀ value : pystr,
     ∃ identifier : pystr,
       clean_enum_key value = identifier
       ∧ identifier = Spec.sanitizeEnumMember value
       ∧ identifier ≠ []
       ∧ Str.isidentifier identifier = true)
  ∧ Forall (fun value =>
              clean_enum_key value ≠ []
              ∧ Str.isidentifier (clean_enum_key value) = true)
      [py ""; py "3-d"; py "caf" ++ [233]; py "VALID_NAME"].
Proof.
  assert (∀ value, clean_enum_key value ≠ []
                   ∧ Str.isidentifier (clean_enum_key value) = true) as Hid.
  { intros value. rewrite clean_enum_key_shape.
    split; [done|apply sanitized_identifier]. }
  split.
  - intros value. exists (clean_enum_key value). split; [done|].
    split; [|apply Hid].
    unfold Spec.sanitizeEnumMember.
    rewrite sanitized_shape, sanitized_identifier.
    apply clean_enum_key_shape.
  - repeat constructor; apply Hid.
Qed.

Example clean_enum_key_examples :
  let _ := latin1_unicode in
  clean_enum_key (py "") = py "ENUM"
  ∧ clean_enum_key (py "3-d") = py "ENUM_3_D"
  ∧ clean_enum_key (py "caf" ++ [233]) = py "ENUM_CAF"
  ∧ clean_enum_key (py "VALID_NAME") = py "ENUM_VALID_NAME"
  ∧ clean_enum_key [223] = py "ENUM_SS".
Proof. vm_compute. repeat split. Qed.

(** ** The generator *)

Section GeneratorProperties.
Context `{UnicodeData}.

(** A field with enum values is typed by its enum, whatever its kind. *)
Lemma get_field_type_enum field parent_name :
  truthy (enum_values field) = true →
  _get_field_type field parent_name
  = parent_name ++ py "_" ++ key field ++ py "_enum"
  ∧ name (_generate_enum_model field parent_name)
    = parent_name ++ py "_" ++ key field ++ py "_enum"
  ∧ head (nested_models_of field parent_name)
    = Some (_generate_enum_model field parent_name).
Proof.
  intros Hev. unfold _get_field_type.
  destruct field as [k t d r ev ch]; simpl in *. by rewrite Hev.
Qed.

(** The members of an enum stand in the order of the values. *)
Lemma enum_model_code field parent_name :
  code (_generate_enum_model field parent_name)
  = py "class " ++ parent_name ++ py "_" ++ key field ++ py "_enum"
    ++ py "(str, Enum):" ++ [Chr.LF]
    ++ Str.join [Chr.LF]
         (map (fun value =>
                 py "    " ++ clean_enum_key value ++ py " = '"
                 ++ Str.replace Chr.SQUOTE [Chr.BACKSLASH; Chr.SQUOTE] value
                 ++ py "'")
              (or_empty (enum_values field))).
Proof.
  unfold _generate_enum_model. cbn [code]. rewrite <- !app_assoc. reflexivity.
Qed.

Lemma enum_literal_read_back value :
  forallb plain_char value = true →
  Literal.read Chr.SQUOTE
    (Str.replace Chr.SQUOTE [Chr.BACKSLASH; Chr.SQUOTE] value)
  = Some value.
Proof.
  induction value as [|c value IH]; [done|]. intros Hall. simpl in Hall.
  apply andb_true_iff in Hall as [Hc Hall]. specialize (IH Hall).
  unfold plain_char in Hc. apply andb_true_iff in Hc as [Hsource Hplain].
  apply negb_true_iff in Hplain.
  apply orb_false_iff in Hplain as [Hplain Hr].
  apply orb_false_iff in Hplain as [Hb Hl].
  cbn [Str.replace].
  destruct (N.eqb_spec c Chr.SQUOTE) as [->|Hq].
  - simpl. simpl in IH. by rewrite IH.
  - cbn [app Literal.read].
    apply N.eqb_neq in Hq. rewrite Hsource, Hb, Hl, Hr, Hq. simpl.
    fold (Str.replace Chr.SQUOTE [Chr.BACKSLASH; Chr.SQUOTE] value).
    by rewrite IH.
Qed.

Lemma zip_with_map_map {A B C D} (f : B → C → D) (g : A → B) (h : A → C) l :
  zip_with f (map g l) (map h l) = map (fun a => f (g a) (h a)) l.
Proof. induction l as [|a l IH]; [done|]. simpl. by rewrite IH. Qed.

(** X5. The text of an enum is its class line and one line per value, in the
    order of the values, each with the sanitized name and a single-quoted
    literal; when the values hold no backslash, no line end and only
    characters that a program text can hold, the literal of each member is
    read back as the value it stands for. *)
Theorem enum_value_read_back field parent_name values :
  enum_values field = Some values →
  Forall (fun value => forallb plain_char value = true) values →
  ∃ bodies,
    code (_generate_enum_model field parent_name)
    = py "class " ++ name (_generate_enum_model field parent_name)
      ++ py "(str, Enum):" ++ [Chr.LF]
      ++ Str.join [Chr.LF]
           (zip_with enum_member_line (map clean_enum_key values) bodies)
    ∧ Forall2 (fun body value => Literal.read Chr.SQUOTE body = Some value)
        bodies values.
Proof.
  intros Hvalues Hplain.
  exists (map (Str.replace Chr.SQUOTE [Chr.BACKSLASH; Chr.SQUOTE]) values).
  split.
  - unfold _generate_enum_model. cbn [code name]. rewrite Hvalues.
    cbn [or_empty]. by rewrite zip_with_map_map.
  - clear Hvalues.
    induction Hplain as [|value values' Hvalue _ IH]; [by constructor|].
    simpl. constructor; [by apply enum_literal_read_back|apply IH].
Qed.

(** C9. For the field [path] with the one enum value [C:\new], the type of
    the field is the enum [M_path_enum], and the literal of its member is the
    value with nothing done to its backslash: read as a string literal it is
    [C:], a line feed and [ew], not the value. *)
Theorem enum_member_value_differs :
  _get_field_type backslash_enum (py "M") = py "M_path_enum"
  ∧ _generate_enum_model backslash_enum (py "M")
    = {| name := py "M_path_enum";
         code := py "class M_path_enum(str, Enum):" ++ [Chr.LF]
                 ++ py "    ENUM_C_NEW = 'C:\new'" |}
  ∧ Literal.read Chr.SQUOTE
      (Str.replace Chr.SQUOTE [Chr.BACKSLASH; Chr.SQUOTE] (py "C:\new"))
    = Some (py "C:" ++ [Chr.LF] ++ py "ew")
  ∧ py "C:" ++ [Chr.LF] ++ py "ew" ≠ py "C:\new".
Proof. repeat split; try reflexivity. discriminate. Qed.

(** C3. For the object field [a] without children, the generator emits no
    class for the field, and the root class types the field by [M_a], a name
    that the text does not define. *)
Theorem childless_object_type_undefined :
  _generate_nested_models [childless_object] (py "M") = []
  ∧ _get_field_type childless_object (py "M") = py "M_a"
  ∧ generate_pydantic_model_code [childless_object] (py "M")
    = IMPORTS_TEMPLATE ++ [Chr.LF; Chr.LF]
      ++ py "class M(BaseModel):" ++ [Chr.LF]
      ++ py "    a: M_a = Field(description=" ++ [Chr.DQUOTE] ++ py "d"
      ++ [Chr.DQUOTE] ++ py ")"
  ∧ Str.contains (py "class M_a")
      (generate_pydantic_model_code [childless_object] (py "M")) = false.
Proof. repeat split; reflexivity. Qed.

(** C2. For the array field [tags] with an empty list of children, the text
    is the imports and the root class alone; the definition of the field
    names the item class [M_tags_item], which no component declares and no
    line of the text defines. *)
Theorem childless_array_reference_undeclared :
  generate_pydantic_model_code [childless_array] (py "M")
  = IMPORTS_TEMPLATE ++ [Chr.LF; Chr.LF]
    ++ py "class M(BaseModel):" ++ [Chr.LF]
    ++ py "    tags: List[M_tags_item] = Field(description=" ++ [Chr.DQUOTE]
    ++ py "d" ++ [Chr.DQUOTE] ++ py ")"
  ∧ referenced_type childless_array (py "M") = Some (py "M_tags_item")
  ∧ map name (_generate_nested_models [childless_array] (py "M")) = []
  ∧ Str.contains (py "class M_tags_item")
      (generate_pydantic_model_code [childless_array] (py "M")) = false.
Proof. repeat split; reflexivity. Qed.

End GeneratorProperties.

(** ** Order of the declarations *)

Lemma well_scoped_weaken declared declared' ds :
  declared ⊆ declared' → well_scoped declared ds → well_scoped declared' ds.
Proof.
  revert declared declared'.
  induction ds as [|d ds IH]; intros declared declared' Hsub; [done|].
  simpl. intros [Hrefs Hrest]. split; [by intros r Hr; apply Hsub, Hrefs|].
  eapply IH; [|exact Hrest]. by apply union_mono_l.
Qed.

Lemma well_scoped_app declared ds1 ds2 :
  well_scoped declared ds1 →
  well_scoped (list_to_set (map decl_name ds1) ∪ declared) ds2 →
  well_scoped declared (ds1 ++ ds2).
Proof.
  revert declared. induction ds1 as [|d ds1 IH]; intros declared; simpl.
  - intros _. apply well_scoped_weaken. by rewrite union_empty_l_L.
  - intros [Hrefs Hrest] H2. split; [done|].
    apply IH; [done|]. eapply well_scoped_weaken; [|exact H2].
    intros r. rewrite !elem_of_union. tauto.
Qed.

Lemma well_scoped_flat_map {A} (g : A → list declaration) l :
  Forall (fun a => ∀ declared, well_scoped declared (g a)) l →
  ∀ declared, well_scoped declared (flat_map g l).
Proof.
  induction 1 as [|a l Ha _ IH]; intros declared; simpl; [done|].
  apply well_scoped_app; [apply Ha|apply IH].
Qed.

Lemma well_scoped_declared_before_gen declared ds :
  well_scoped declared ds →
  ∀ i d r, ds !! i = Some d → r ∈ decl_refs d →
    r ∈ declared
    ∨ ∃ j d', (j < i)%nat ∧ ds !! j = Some d' ∧ decl_name d' = r.
Proof.
  revert declared. induction ds as [|d0 ds IH]; intros declared; [done|].
  simpl. intros [Hrefs Hrest] [|i] d r Hi Hr; simpl in Hi.
  - injection Hi as <-. left. by apply Hrefs.
  - destruct (IH _ Hrest i d r Hi Hr) as [Hin|(j & d' & Hj & Hd' & Hname)].
    + apply elem_of_union in Hin as [->%elem_of_singleton|Hin]; [|by left].
      right. exists 0%nat, d0. split; [lia|]. by split.
    + right. exists (S j), d'. split; [lia|]. by split.
Qed.

Lemma well_scoped_declared_before ds :
  well_scoped ∅ ds → declared_before ds.
Proof.
  intros Hds i d r Hi Hr.
  destruct (well_scoped_declared_before_gen _ _ Hds i d r Hi Hr) as [Hin|Hj];
    [by apply elem_of_empty in Hin|done].
Qed.

Lemma elem_of_flat_map_names {A} (g : A → list declaration) l a r :
  a ∈ l → r ∈ map decl_name (g a) → r ∈ map decl_name (flat_map g l).
Proof.
  rewrite !list_elem_of_In, !in_map_iff. intros Ha (d & Hd & Hin).
  exists d. split; [done|]. apply in_flat_map. eauto.
Qed.

Section DeclarationProperties.
Context `{UnicodeData}.

(** The declarations are the components, name by name. *)
Lemma declarations_of_names field parent_name :
  map decl_name (declarations_of field parent_name)
  = map name (nested_models_of field parent_name).
Proof.
  revert parent_name. induction field as [k t d r ev ch IH]
    using SchemaField_nested_ind. intros parent_name.
  cbn [declarations_of nested_models_of enum_values children].
  rewrite !map_app. f_equal; [by destruct (truthy ev)|].
  destruct (is_composite _ && truthy ch); [|done].
  rewrite !map_app. f_equal.
  destruct ch as [cs|]; [|done]. simpl in IH.
  generalize (_get_nested_model_name
                (mkSchemaField k t d r ev (Some cs)) parent_name).
  intros nested_name.
  induction IH as [|c cs' Hc _ IHcs]; [done|].
  simpl. by rewrite !map_app, Hc, IHcs.
Qed.

Lemma program_declarations_names schema_fields model_name :
  map decl_name (program_declarations schema_fields model_name)
  = map name (_generate_nested_models schema_fields model_name)
    ++ [model_name].
Proof.
  unfold program_declarations, _generate_nested_models.
  rewrite map_app. f_equal.
  induction schema_fields as [|f fs IH]; [done|].
  simpl. by rewrite !map_app, declarations_of_names, IH.
Qed.

Lemma nested_models_of_declare field parent_name :
  Forall declares (nested_models_of field parent_name).
Proof.
  revert parent_name. induction field as [k t d r ev ch IH]
    using SchemaField_nested_ind. intros parent_name.
  cbn [nested_models_of enum_values children].
  apply Forall_app. split.
  - destruct (truthy ev); [|done]. apply Forall_singleton.
    unfold declares, _generate_enum_model. cbn [name code]. by eexists.
  - destruct (is_composite _ && truthy ch); [|done].
    apply Forall_app. split.
    + destruct ch as [cs|]; [|done]. simpl in IH.
      generalize (_get_nested_model_name
                    (mkSchemaField k t d r ev (Some cs)) parent_name).
      intros nested_name.
      induction IH as [|c cs' Hc _ IHcs]; [done|].
      simpl. apply Forall_app. split; [apply Hc|apply IHcs].
    + apply Forall_singleton.
      unfold declares, _generate_nested_class. cbn [name code]. by eexists.
Qed.

(** The text is the imports, the components in their order and the root
    class, each a class statement of its name. *)
Lemma generate_components schema_fields model_name :
  generate_pydantic_model_code schema_fields model_name
  = Str.join [Chr.LF; Chr.LF]
      ([IMPORTS_TEMPLATE]
       ++ map code (_generate_nested_models schema_fields model_name)
       ++ [_generate_main_model schema_fields model_name])
  ∧ Forall declares (_generate_nested_models schema_fields model_name)
  ∧ ∃ rest, _generate_main_model schema_fields model_name
            = py "class " ++ model_name ++ py "(" ++ rest.
Proof.
  split; [done|]. split; [|by eexists].
  unfold _generate_nested_models.
  induction schema_fields as [|f fs IH]; [done|].
  simpl. apply Forall_app. split; [apply nested_models_of_declare|apply IH].
Qed.

(** A field without enum values and without children contributes no
    component, whatever its kind, while an object or array still names its
    nested type. *)
Lemma childless_field_emits_nothing field parent_name :
  truthy (enum_values field) = false →
  truthy (children field) = false →
  nested_models_of field parent_name = []
  ∧ (is_composite field = true →
     is_Some (referenced_type field parent_name)).
Proof.
  destruct field as [k t d r ev ch]. cbn [enum_values children].
  intros Hev Hch. split.
  - cbn [nested_models_of enum_values children].
    by rewrite Hev, Hch, andb_false_r.
  - unfold is_composite, referenced_type. cbn [enum_values type].
    rewrite Hev. destruct (Str.eqb t (py "object")); [by eexists|].
    destruct (Str.eqb t (py "array")); [by eexists|done].
Qed.

(** The type written in a field definition is the referenced type, inside
    [List[...]] for an array without enum values, or a scalar of the table. *)
Lemma get_field_type_referenced field scope :
  _get_field_type field scope
  = match referenced_type field scope with
    | Some r =>
        if negb (truthy (enum_values field))
           && negb (Str.eqb (type field) (py "object"))
        then py "List[" ++ r ++ py "]"
        else r
    | None => dict_get TYPE_MAPPING (type field) (py "str")
    end.
Proof.
  unfold _get_field_type, referenced_type.
  destruct (truthy _); [done|]. destruct (Str.eqb _ (py "object")); [done|].
  destruct (Str.eqb _ (py "array")); [|done]. cbn [negb andb].
  rewrite <- !app_assoc. reflexivity.
Qed.

Lemma declarations_of_scoped field :
  has_children_where_needed field = true →
  ∀ parent_name,
    (∀ declared, well_scoped declared (declarations_of field parent_name))
    ∧ (∀ r, referenced_type field parent_name = Some r →
            r ∈ map decl_name (declarations_of field parent_name)).
Proof.
  induction field as [k t d r ev ch IH] using SchemaField_nested_ind.
  intros Hwf parent_name.
  cbn [has_children_where_needed enum_values children] in Hwf.
  apply andb_true_iff in Hwf as [Hneed Hrec].
  cbn [declarations_of enum_values children].
  set (field := mkSchemaField k t d r ev ch) in *.
  set (nested_name := _get_nested_model_name field parent_name).
  assert (is_composite field && truthy ch = true →
          ∀ declared,
            well_scoped declared
              (match ch with
               | Some cs => flat_map (fun c => declarations_of c nested_name) cs
               | None => []
               end
               ++ [ {| decl_name :=
                         name (_generate_nested_class field nested_name);
                       decl_refs := class_refs (or_empty ch) nested_name |} ]))
    as Hnested.
  { intros Hemit declared. rewrite Hemit in Hrec.
    destruct ch as [cs|]; [|by rewrite andb_false_r in Hemit].
    simpl in IH. simpl or_empty.
    rewrite forallb_forall in Hrec. rewrite Forall_forall in IH.
    assert (∀ c, c ∈ cs →
              ∀ scope,
                (∀ declared, well_scoped declared (declarations_of c scope))
                ∧ (∀ r, referenced_type c scope = Some r →
                        r ∈ map decl_name (declarations_of c scope)))
      as Hchild.
    { intros c Hc. apply (IH c Hc), Hrec, list_elem_of_In, Hc. }
    apply well_scoped_app.
    - apply well_scoped_flat_map, Forall_forall. intros c Hc.
      exact (proj1 (Hchild c Hc nested_name)).
    - simpl. split; [|done]. intros r0 Hr0.
      apply list_elem_of_omap in Hr0 as (c & Hc & Hr0).
      apply elem_of_union. left. apply elem_of_list_to_set.
      apply (elem_of_flat_map_names _ cs c); [done|].
      exact (proj2 (Hchild c Hc nested_name) r0 Hr0). }
  split.
  - intros declared. apply well_scoped_app.
    + destruct (truthy ev); simpl; [split; [|done]|done].
      intros r0 Hr0. by apply elem_of_nil in Hr0.
    + destruct (is_composite field && truthy ch) eqn:Hemit; [|done].
      by apply Hnested.
  - intros r0. clear Hnested Hrec. subst nested_name field.
    unfold referenced_type, is_composite in *.
    cbn [enum_values type key children] in *.
    rewrite map_app, elem_of_app.
    destruct (truthy ev) eqn:Hev.
    { intros [= <-]. left. simpl. apply list_elem_of_In. by left. }
    intros Hr0. right. simpl in Hneed.
    assert (Str.eqb t (py "object") || Str.eqb t (py "array") = true) as Hc.
    { destruct (Str.eqb t (py "object")); [done|].
      by destruct (Str.eqb t (py "array")). }
    rewrite Hc in Hneed. simpl in Hneed. rewrite Hc, Hneed. simpl.
    rewrite map_app, elem_of_app. right. simpl.
    apply list_elem_of_In. left.
    unfold _get_nested_model_name. cbn [type key].
    destruct (Str.eqb t (py "object")) eqn:Hobj.
    + injection Hr0 as <-. apply eqb_eq in Hobj as ->. done.
    + destruct (Str.eqb t (py "array")); [|done].
      injection Hr0 as <-. by rewrite <- !app_assoc.
Qed.

(** X9. When every object or array without enum values has children, at every
    level for which a class is emitted, each synthesized type that a field
    definition names is declared before the class of that definition, and the
    root class is declared last. *)
Theorem generate_declared_before schema_fields model_name :
  Forall (fun field => has_children_where_needed field = true) schema_fields →
  declared_before (program_declarations schema_fields model_name)
  ∧ last (map decl_name (program_declarations schema_fields model_name))
    = Some model_name.
Proof.
  intros Hwf. split.
  - apply well_scoped_declared_before. unfold program_declarations.
    apply well_scoped_app.
    + apply well_scoped_flat_map. eapply Forall_impl; [exact Hwf|].
      intros f Hf. exact (proj1 (declarations_of_scoped f Hf model_name)).
    + simpl. split; [|done]. intros r Hr.
      apply list_elem_of_omap in Hr as (f & Hf & Hr).
      apply elem_of_union. left. apply elem_of_list_to_set.
      apply (elem_of_flat_map_names _ schema_fields f); [done|].
      rewrite Forall_forall in Hwf.
      exact (proj2 (declarations_of_scoped f (Hwf f Hf) model_name) r Hr).
  - unfold program_declarations. rewrite map_app. cbn [map decl_name].
    apply last_snoc.
Qed.

End DeclarationProperties.

(** ** The services *)

Section ServiceProperties.
Context `{UnicodeData} `{Interpreter} `{!Extractor}.

(** The text [compile] gives for the empty field list. *)
Lemma generate_empty model_name :
  generate_pydantic_model_code [] model_name
  = IMPORTS_TEMPLATE ++ [Chr.LF; Chr.LF]
    ++ py "class " ++ model_name ++ py "(BaseModel):" ++ [Chr.LF].
Proof.
  unfold generate_pydantic_model_code, generate, _generate_main_model.
  cbn [_generate_nested_models flat_map map app fields_code Str.join].
  reflexivity.
Qed.

(** [create_schema] returns the id it was given by [uuid4] and writes the two
    artifacts. *)
Lemma create_schema_returns uuid now request w :
  let created := create_schema uuid now request w in
  fst created = Returned uuid
  ∧ programs (snd created) !! schema_path_of uuid
    = Some (generate_pydantic_model_code (def_fields request)
              (root_name (def_name request) uuid))
  ∧ metadata (snd created) !! metadata_path_of uuid
    = Some {| info_id := uuid;
              info_name := def_name request;
              info_description := def_description request;
              info_created_at := now |}.
Proof. simpl. by rewrite !lookup_insert_eq. Qed.


(** The load after a creation finds both artifacts, runs the text the
    generator gave, and looks up the name the generator gave the root
    class. *)
Lemma load_after_create uuid now request w :
  let text := generate_pydantic_model_code (def_fields request)
                (root_name (def_name request) uuid) in
  let info := {| info_id := uuid;
                 info_name := def_name request;
                 info_description := def_description request;
                 info_created_at := now |} in
  fst (load_schema_model uuid (snd (create_schema uuid now request w)))
  = match exec_module text with
    | (_, Some message) =>
        Raised (HTTPException 500 (py "Error loading schema: " ++ message))
    | (namespace, None) =>
        match namespace !! root_name (def_name request) uuid with
        | Some model_class => Returned (model_class, info)
        | None =>
            Raised (HTTPException 500
                      (py "Error loading schema: "
                       ++ attribute_error (spec_name_of uuid)
                            (root_name (def_name request) uuid)))
        end
    end.
Proof.
  intros text info. unfold load_schema_model.
  destruct (create_schema_returns uuid now request w) as (_ & -> & ->).
  fold text. destruct (exec_module text) as [namespace [e|]]; [done|].
  simpl. by destruct (namespace !! _).
Qed.



(** C10. When the request has neither a schema id nor fields,
    [extract_information] raises the HTTP exception 400 saying that either
    must be provided, and leaves the world as it was: no call to the
    extraction library is added and no artifact, module or entry of
    [sys.modules] changes. *)
Theorem extract_information_requires_input uuid request w :
  req_schema_id request = None →
  req_fields request = None →
  extract_information uuid request w
  = (Raised (HTTPException 400
               (py "Either schema_id or fields must be provided")), w).
Proof. unfold extract_information. by intros -> ->. Qed.

(** C6. The class [SchemaService] has no attribute [delete_schema]: the
    endpoint raises the attribute error for every schema id and leaves the
    world as it was, with both artifacts where they were, so a load of the id
    after it does what a load before it did. *)
Theorem delete_schema_raises schema_id w :
  Main.delete_schema schema_id w
  = (Raised (PyError
       (py "type object 'SchemaService' has no attribute 'delete_schema'")),
     w)
  ∧ load_schema_model schema_id (snd (Main.delete_schema schema_id w))
    = load_schema_model schema_id w.
Proof. split; reflexivity. Qed.


(** C4. For the empty field list nothing is raised, in the generator or in
    [create_schema]: the generator gives the import header, a blank line and
    the header of the root class, a class statement that has no body, and
    [create_schema] stores this text and returns the id.  A load of that id
    finds both artifacts and returns the class only when the interpreter runs
    this text to its end and binds the root name; it raises the HTTP exception
    500 with the interpreter's error otherwise. *)
Theorem create_schema_empty_fields uuid now schema_name schema_description w :
  let request := {| def_name := schema_name;
                    def_description := schema_description;
                    def_fields := [] |} in
  let text :=
    IMPORTS_TEMPLATE ++ [Chr.LF; Chr.LF]
    ++ py "class " ++ root_name schema_name uuid
    ++ py "(BaseModel):" ++ [Chr.LF] in
  let created := create_schema uuid now request w in
  fst created = Returned uuid
  ∧ programs (snd created) !! schema_path_of uuid = Some text
  ∧ fst (load_schema_model uuid (snd created))
    = match exec_module text with
      | (_, Some message) =>
          Raised (HTTPException 500 (py "Error loading schema: " ++ message))
      | (namespace, None) =>
          match namespace !! root_name schema_name uuid with
          | Some model_class =>
              Returned (model_class,
                        {| info_id := uuid;
                           info_name := schema_name;
                           info_description := schema_description;
                           info_created_at := now |})
          | None =>
              Raised (HTTPException 500
                        (py "Error loading schema: "
                         ++ attribute_error (spec_name_of uuid)
                              (root_name schema_name uuid)))
          end
      end.
Proof.
  intros request text created.
  destruct (create_schema_returns uuid now request w) as (Hid & Hp & _).
  split; [exact Hid|].
  split; [unfold created; rewrite Hp; by rewrite generate_empty|].
  unfold created. rewrite load_after_create.
  change (def_fields request) with (@nil SchemaField).
  by rewrite generate_empty.
Qed.

(** C1. For the schema [S] with the one string field [dir] whose enum value
    is [C:\], created under the id [0a-1b]: the creation returns the id and
    stores the text below, in which the literal of the enum member is
    malformed, its backslash taking the closing quote; the load finds both
    artifacts and returns the class only when the interpreter runs this text
    to its end and binds [S_0a_1b], and raises the HTTP exception 500 with the
    interpreter's error otherwise. *)
Theorem create_then_load_backslash_enum now w :
  let request := example_request [trailing_backslash_enum] in
  let text :=
    IMPORTS_TEMPLATE ++ [Chr.LF; Chr.LF]
    ++ py "class S_0a_1b_dir_enum(str, Enum):" ++ [Chr.LF]
    ++ py "    ENUM_C = 'C:\'" ++ [Chr.LF; Chr.LF]
    ++ py "class S_0a_1b(BaseModel):" ++ [Chr.LF]
    ++ py "    dir: S_0a_1b_dir_enum = Field(description=" ++ [Chr.DQUOTE]
    ++ py "d" ++ [Chr.DQUOTE] ++ py ")" in
  let created := create_schema example_id now request w in
  fst created = Returned example_id
  ∧ programs (snd created) !! schema_path_of example_id = Some text
  ∧ Literal.read Chr.SQUOTE
      (Str.replace Chr.SQUOTE [Chr.BACKSLASH; Chr.SQUOTE] (py "C:\"))
    = None
  ∧ fst (load_schema_model example_id (snd created))
    = match exec_module text with
      | (_, Some message) =>
          Raised (HTTPException 500 (py "Error loading schema: " ++ message))
      | (namespace, None) =>
          match namespace !! py "S_0a_1b" with
          | Some model_class =>
              Returned (model_class,
                        {| info_id := example_id;
                           info_name := py "S";
                           info_description := py "example";
                           info_created_at := now |})
          | None =>
              Raised (HTTPException 500
                        (py "Error loading schema: module 'schema_0a-1b' "
                         ++ py "has no attribute 'S_0a_1b'"))
          end
      end.
Proof.
  intros request text created.
  assert (generate_pydantic_model_code (def_fields request)
            (root_name (def_name request) example_id) = text) as Htext
    by reflexivity.
  destruct (create_schema_returns example_id now request w) as (Hid & Hp & _).
  split; [exact Hid|]. split; [by rewrite <- Htext|].
  split; [reflexivity|].
  unfold created. rewrite load_after_create, Htext.
  destruct (exec_module text) as [namespace [e|]]; [done|].
  change (root_name (def_name request) example_id) with (py "S_0a_1b").
  by destruct (namespace !! _).
Qed.

End ServiceProperties.

(** ** Closed examples *)

Section Examples.
#[local] Existing Instance latin1_unicode.
#[local] Existing Instance header_interpreter.
#[local] Existing Instance empty_extractor.

Lemma extract_information_requires_input_witness :
  extract_information example_id empty_request stored_world
  = (Raised (HTTPException 400
               (py "Either schema_id or fields must be provided")),
     stored_world).
Proof.
  apply (extract_information_requires_input example_id empty_request
           stored_world); reflexivity.
Defined.

(** The empty field list: the creation returns, and the program it stored
    ends with the header of the root class. *)
Example create_schema_empty_fields_no_error :
  fst (create_schema example_id (py "2025-01-01") (example_request [])
         empty_world)
  = Returned example_id
  ∧ generate_pydantic_model_code [] (py "S_0a_1b")
    = IMPORTS_TEMPLATE ++ [Chr.LF; Chr.LF] ++ py "class S_0a_1b(BaseModel):"
      ++ [Chr.LF].
Proof. split; reflexivity. Qed.


(** The same load leaves the bytecode of the program beside it. *)
Example load_schema_model_bytecode_file :
  bytecode stored_world = ∅
  ∧ bytecode (snd (load_schema_model example_id stored_world))
    = {[ py "schema_models/__pycache__/0a-1b.cpython-312.pyc"
         := generate_pydantic_model_code stored_fields (py "S_0a_1b") ]}.
Proof. split; vm_compute; reflexivity. Qed.


(** After a delete that raised, the schema is loaded as before. *)
Example delete_then_load_still_found :
  fst (load_schema_model example_id
         (snd (Main.delete_schema example_id stored_world)))
  = Returned (py "S_0a_1b",
              {| info_id := example_id;
                 info_name := py "S";
                 info_description := py "example";
                 info_created_at := py "2025-01-01" |}).
Proof. vm_compute. reflexivity. Qed.

(** An array of items with an enum and an object inside: every field has the
    children it needs, and the declarations come in the order enum of the
    item, class of the inner object, class of the item, root class. *)
Example generate_declared_before_nested :
  map decl_name (program_declarations [nested_example] (py "M"))
  = [py "M_rows_item_kind_enum"; py "M_rows_item_at"; py "M_rows_item";
     py "M"]
  ∧ declared_before (program_declarations [nested_example] (py "M")).
Proof.
  split; [reflexivity|].
  apply (generate_declared_before [nested_example] (py "M")).
  repeat constructor.
Defined.

End Examples.

(** * Further properties of the generator *)

Lemma escape_char_no_control x c :
  In c (escape_char x) → c ≠ Chr.LF ∧ c ≠ Chr.CR ∧ c ≠ Chr.TAB.
Proof.
  unfold escape_char.
  repeat match goal with
  | |- context [N.eqb x ?k] => destruct (N.eqb_spec x k) as [->|?]
  end; simpl; intros Hin;
  repeat match goal with
  | H : _ ∨ _ |- _ => destruct H as [<-|H]
  | H : False |- _ => destruct H
  end; done.
Qed.

Lemma escape_description_chars d c :
  In c (escape_description d) → c ≠ Chr.LF ∧ c ≠ Chr.CR ∧ c ≠ Chr.TAB.
Proof.
  rewrite escape_description_pass. intros (x & _ & Hc)%in_flat_map.
  by apply (escape_char_no_control x).
Qed.

(** X1. The escaped description holds no line feed, no carriage return and no
    tab, whatever the description. *)
Theorem escape_description_no_control (description : pystr) :
  Forall (fun c => c ≠ Chr.LF ∧ c ≠ Chr.CR ∧ c ≠ Chr.TAB)
    (escape_description description).
Proof.
  apply Forall_forall. intros c Hc. apply list_elem_of_In in Hc.
  by apply (escape_description_chars description).
Qed.

Lemma one_line_py_literal (s : pystr) :
  forallb (fun c => negb (c =? Chr.LF) && negb (c =? Chr.CR)) s = true →
  one_line s.
Proof.
  intros Hs. apply Forall_forall. intros c Hc. apply list_elem_of_In in Hc.
  rewrite forallb_forall in Hs. specialize (Hs c Hc).
  apply andb_true_iff in Hs as [Hl Hr].
  apply negb_true_iff in Hl, Hr. by apply N.eqb_neq in Hl, Hr.
Qed.

Ltac one_line_parts :=
  repeat (apply Forall_app; split);
  first [ assumption | apply one_line_py_literal; vm_compute; reflexivity ].

Section FurtherGenerator.
Context `{UnicodeData}.

(** X2. A field definition stays on one line: when the key and the type hold
    no line end, neither does the definition, whatever the description. *)
Theorem field_definition_one_line (field : SchemaField) (field_type : pystr) :
  one_line (key field) →
  one_line field_type →
  one_line (_generate_field_definition field field_type).
Proof.
  intros Hkey Htype. unfold _generate_field_definition, one_line.
  assert (one_line (escape_description (description field))) as Hdesc.
  { apply Forall_forall. intros c Hc. apply list_elem_of_In in Hc.
    destruct (escape_description_chars _ _ Hc) as (? & ? & _). done. }
  fold (one_line field_type) in Htype. fold (one_line (key field)) in Hkey.
  destruct (required field); cbn [negb]; unfold one_line in *; one_line_parts.
Qed.

(** X3. A field without enum values that is neither an object nor an array is
    typed by one of the four scalar names, and by [str] when its kind is none
    of the four known ones; the entries of the table for objects and arrays
    are never used. *)
Theorem scalar_field_type (field : SchemaField) (parent_name : pystr) :
  truthy (enum_values field) = false →
  is_composite field = false →
  _get_field_type field parent_name
  ∈ [py "str"; py "int"; py "bool"; py "float"]
  ∧ (type field ∉ [py "string"; py "int"; py "boolean"; py "float"] →
     _get_field_type field parent_name = py "str").
Proof.
  unfold _get_field_type, is_composite. intros -> Hc.
  apply orb_false_iff in Hc as [Ho Ha]. rewrite Ho, Ha.
  unfold TYPE_MAPPING. cbn [dict_get].
  destruct (Str.eqb (py "string") (type field)) eqn:E1.
  { apply eqb_eq in E1. split; [by repeat constructor|].
    intros Hnot. exfalso. apply Hnot. rewrite <- E1. by repeat constructor. }
  destruct (Str.eqb (py "int") (type field)) eqn:E2.
  { apply eqb_eq in E2. split; [by repeat constructor|].
    intros Hnot. exfalso. apply Hnot. rewrite <- E2. by repeat constructor. }
  destruct (Str.eqb (py "boolean") (type field)) eqn:E3.
  { apply eqb_eq in E3. split; [by repeat constructor|].
    intros Hnot. exfalso. apply Hnot. rewrite <- E3. by repeat constructor. }
  destruct (Str.eqb (py "float") (type field)) eqn:E4.
  { apply eqb_eq in E4. split; [by repeat constructor|].
    intros Hnot. exfalso. apply Hnot. rewrite <- E4. by repeat constructor. }
  assert (∀ a b, Str.eqb a b = Str.eqb b a) as Hsym.
  { intros a b. destruct (Str.eqb a b) eqn:Eab.
    - apply eqb_eq in Eab as ->. by rewrite eqb_refl.
    - destruct (Str.eqb b a) eqn:Eba; [|done].
      apply eqb_eq in Eba as ->. by rewrite eqb_refl in Eab. }
  rewrite (Hsym (py "object")), (Hsym (py "array")), Ho, Ha.
  split; [by repeat constructor|done].
Qed.

(** X4. For an object or array field without enum values and with children,
    the class that the type of the field names is emitted: its name is that of
    a component of the field, and the type is this name, inside [List[...]]
    for an array. *)
Theorem composite_type_is_emitted (field : SchemaField) (parent_name : pystr) :
  truthy (enum_values field) = false →
  is_composite field = true →
  truthy (children field) = true →
  let nested_name := _get_nested_model_name field parent_name in
  In nested_name (map name (nested_models_of field parent_name))
  ∧ _get_field_type field parent_name
    = if Str.eqb (type field) (py "object") then nested_name
      else py "List[" ++ nested_name ++ py "]".
Proof.
  destruct field as [k t d r ev ch]. cbn [enum_values children].
  intros Hev Hc Hch. split.
  - cbn [nested_models_of enum_values children]. rewrite Hev, Hc, Hch.
    simpl. rewrite map_app. apply in_or_app. right. by left.
  - unfold _get_field_type, _get_nested_model_name,
      is_composite in *. cbn [enum_values type key] in *. rewrite Hev.
    destruct (Str.eqb t (py "object")) eqn:Eo.
    + apply eqb_eq in Eo as ->. done.
    + simpl in Hc. rewrite Hc. rewrite <- !app_assoc. reflexivity.
Qed.

End FurtherGenerator.

(** ** Member names *)

Lemma strip_trailing_snoc l :
  Spec.strip_trailing (l ++ [Chr.UNDERSCORE]) = Spec.strip_trailing l.
Proof.
  induction l as [|a l IH]; [done|].
  change ((a :: l) ++ [Chr.UNDERSCORE]) with (a :: (l ++ [Chr.UNDERSCORE])).
  by rewrite !strip_trailing_cons, IH.
Qed.

Lemma collapse_snoc s :
  Spec.collapse (s ++ [Chr.UNDERSCORE]) = Spec.collapse s
  ∨ Spec.collapse (s ++ [Chr.UNDERSCORE])
    = Spec.collapse s ++ [Chr.UNDERSCORE].
Proof.
  induction s as [|a s IH]; [by right|].
  change ((a :: s) ++ [Chr.UNDERSCORE]) with (a :: (s ++ [Chr.UNDERSCORE])).
  rewrite !collapse_cons. destruct IH as [-> | ->]; [by left|].
  destruct (Spec.collapse s) as [|d rest]; simpl.
  - destruct (N.eqb_spec a Chr.UNDERSCORE) as [->|?]; [by left|by right].
  - destruct ((a =? Chr.UNDERSCORE) && (d =? Chr.UNDERSCORE)); by right.
Qed.

Lemma strip_collapse_snoc s :
  Spec.strip_trailing (Spec.collapse (s ++ [Chr.UNDERSCORE]))
  = Spec.strip_trailing (Spec.collapse s).
Proof.
  destruct (collapse_snoc s) as [-> | ->]; [done|apply strip_trailing_snoc].
Qed.

Lemma no_adjacent_collapse s :
  no_adjacent Chr.UNDERSCORE (Spec.collapse s) = true.
Proof.
  induction s as [|a s IH]; [done|]. rewrite collapse_cons.
  destruct (Spec.collapse s) as [|d rest] eqn:E; [done|].
  destruct ((a =? Chr.UNDERSCORE) && (d =? Chr.UNDERSCORE)) eqn:Ead; [done|].
  cbn [no_adjacent] in IH |- *. rewrite Ead. exact IH.
Qed.

Lemma strip_trailing_head s e r :
  Spec.strip_trailing s = e :: r → ∃ r', s = e :: r'.
Proof.
  destruct s as [|a s]; [done|]. rewrite strip_trailing_cons.
  destruct (Spec.strip_trailing s).
  - destruct (a =? Chr.UNDERSCORE); [done|]. intros [= <- <-]. eauto.
  - intros [= <- <-]. eauto.
Qed.

Lemma no_adjacent_strip_trailing s :
  no_adjacent Chr.UNDERSCORE s = true →
  no_adjacent Chr.UNDERSCORE (Spec.strip_trailing s) = true.
Proof.
  induction s as [|a s IH]; [done|]. intros Hs. rewrite strip_trailing_cons.
  destruct (Spec.strip_trailing s) as [|e r] eqn:E.
  - by destruct (a =? Chr.UNDERSCORE).
  - destruct (strip_trailing_head _ _ _ E) as [r' ->].
    specialize (IH (proj2 (proj1 (andb_true_iff _ _) Hs))).
    apply andb_true_iff in Hs as [Hae _].
    cbn [no_adjacent] in IH |- *. rewrite Hae. exact IH.
Qed.

Lemma last_strip_trailing s :
  last (Spec.strip_trailing s) ≠ Some Chr.UNDERSCORE.
Proof.
  induction s as [|a s IH]; [done|]. rewrite strip_trailing_cons.
  destruct (Spec.strip_trailing s) as [|e r] eqn:E.
  - destruct (N.eqb_spec a Chr.UNDERSCORE); [done|]. simpl. congruence.
  - by rewrite last_cons_cons.
Qed.

(** ** Names of the components *)

Lemma names_under_nested_scope parent_name nested_name middle
    (components : list ModelComponent) :
  nested_name = parent_name ++ py "_" ++ middle →
  Forall (fun component =>
            ∃ rest, name component = nested_name ++ py "_" ++ rest)
    components →
  Forall (fun component =>
            ∃ rest, name component = parent_name ++ py "_" ++ rest)
    components.
Proof.
  intros -> Hall. eapply Forall_impl; [exact Hall|].
  intros component [rest ->].
  exists (middle ++ py "_" ++ rest). by rewrite <- !app_assoc.
Qed.

Section FurtherNames.
Context `{UnicodeData}.

(** X6. A value and the value followed by an ASCII character that is neither
    a letter nor a digit get the same member name: the sanitizer loses
    trailing punctuation, so two distinct values of one enum can collide. *)
Theorem clean_enum_key_trailing_punctuation (value : pystr) (c : N) :
  ascii_punctuation c = true →
  clean_enum_key (value ++ [c]) = clean_enum_key value.
Proof.
  unfold ascii_punctuation. intros [Hascii Hnot]%andb_true_iff.
  apply negb_true_iff in Hnot.
  apply orb_false_iff in Hnot as [Hnot Hdigit].
  apply orb_false_iff in Hnot as [Hupper Hlower].
  rewrite !clean_enum_key_shape. f_equal. unfold sanitized_tail.
  assert (Str.upper (value ++ [c]) = Str.upper value ++ [c]) as ->.
  { unfold Str.upper. rewrite flat_map_app. simpl.
    unfold Str.upper_char. by rewrite Hlower, Hascii. }
  assert (Spec.replace_outside (Str.upper value ++ [c])
          = Spec.replace_outside (Str.upper value) ++ [Chr.UNDERSCORE]) as ->.
  { unfold Spec.replace_outside. rewrite map_app. simpl.
    unfold Spec.outside_upper_digit.
    unfold Chr.is_upper, Chr.is_digit in Hupper, Hdigit.
    by rewrite Hupper, Hdigit. }
  apply (strip_collapse_snoc
           (Chr.UNDERSCORE :: Spec.replace_outside (Str.upper value))).
Qed.

(** X7. Every member name is the letters ENUM followed by capital letters,
    digits and underscores only, with no two underscores next to each other
    and no underscore at its end. *)
Theorem clean_enum_key_canonical (value : pystr) :
  (∃ tail, clean_enum_key value = py "ENUM" ++ tail)
  ∧ forallb allowed (clean_enum_key value) = true
  ∧ no_adjacent Chr.UNDERSCORE (clean_enum_key value) = true
  ∧ last (clean_enum_key value) ≠ Some Chr.UNDERSCORE.
Proof.
  rewrite clean_enum_key_shape. unfold sanitized_tail.
  set (body := Spec.collapse
                 (Chr.UNDERSCORE :: Spec.replace_outside (Str.upper value))).
  assert (forallb allowed (Spec.strip_trailing body) = true) as Hallowed.
  { apply strip_trailing_allowed, collapse_allowed. simpl.
    apply replace_outside_allowed. }
  assert (no_adjacent Chr.UNDERSCORE (Spec.strip_trailing body) = true)
    as Hadjacent by apply no_adjacent_strip_trailing, no_adjacent_collapse.
  pose proof (last_strip_trailing body) as Hlast.
  split; [by eexists|].
  destruct (Spec.strip_trailing body) as [|e r]; [by repeat split|].
  split; [exact Hallowed|]. split.
  - cbn [py map list_ascii_of_string app no_adjacent]. exact Hadjacent.
  - exact Hlast.
Qed.

Lemma nested_models_of_names_prefixed field parent_name :
  Forall (fun component =>
            ∃ rest, name component = parent_name ++ py "_" ++ rest)
    (nested_models_of field parent_name).
Proof.
  revert parent_name. induction field as [k t d r ev ch IH]
    using SchemaField_nested_ind. intros parent_name.
  cbn [nested_models_of enum_values children].
  apply Forall_app. split.
  - destruct (truthy ev); [|done]. apply Forall_singleton.
    cbn [_generate_enum_model name key]. by eexists.
  - destruct (is_composite _ && truthy ch); [|done].
    assert (∃ middle,
              _get_nested_model_name (mkSchemaField k t d r ev ch) parent_name
              = parent_name ++ py "_" ++ middle) as [middle Hmiddle].
    { unfold _get_nested_model_name. cbn [type key].
      destruct (Str.eqb t (py "array")); eexists;
        [by rewrite <- !app_assoc|done]. }
    apply Forall_app. split.
    + eapply names_under_nested_scope; [exact Hmiddle|]. clear Hmiddle.
      destruct ch as [cs|]; [|done]. cbn [or_empty] in IH.
      generalize (_get_nested_model_name
                    (mkSchemaField k t d r ev (Some cs)) parent_name).
      intros nested_name.
      induction IH as [|c cs' Hc _ IHcs]; [done|].
      simpl. apply Forall_app. split; [apply Hc|apply IHcs].
    + apply Forall_singleton. cbn [_generate_nested_class name].
      rewrite Hmiddle. by eexists.
Qed.

(** X8. Every synthesized type of a program is named under the root: the name
    of each component that [_generate_nested_models] emits starts with the
    parent name and an underscore. *)
Theorem nested_models_names_prefixed (fields : list SchemaField)
    (parent_name : pystr) :
  Forall (fun component =>
            ∃ rest, name component = parent_name ++ py "_" ++ rest)
    (_generate_nested_models fields parent_name).
Proof.
  unfold _generate_nested_models.
  induction fields as [|f fs IH]; [done|].
  simpl. apply Forall_app. split;
    [apply nested_models_of_names_prefixed|apply IH].
Qed.

End FurtherNames.

(** * Further properties of the services *)

Section FurtherServices.
Context `{UnicodeData} `{Interpreter} `{!Extractor}.









(** A slash in an id makes the difference: the id [./0a-1b] names the files of
    the id [0a-1b]. *)
Example schema_path_alias :
  schema_path_of (py "./0a-1b") = schema_path_of (py "0a-1b")
  ∧ metadata_path_of (py "./0a-1b") = metadata_path_of (py "0a-1b").
Proof. split; reflexivity. Qed.


(** X14. When the interpreter runs the generated program to its end and binds
    the root name, the load after a creation returns the class bound to that
    name together with the metadata of the request: the id, the name, the
    description and the time of creation. *)
Theorem create_then_load_returns uuid now request w namespace model_class :
  exec_module (generate_pydantic_model_code (def_fields request)
                 (root_name (def_name request) uuid))
  = (namespace, None) →
  namespace !! root_name (def_name request) uuid = Some model_class →
  fst (load_schema_model uuid (snd (create_schema uuid now request w)))
  = Returned (model_class,
              {| info_id := uuid;
                 info_name := def_name request;
                 info_description := def_description request;
                 info_created_at := now |}).
Proof.
  intros Hexec Hroot. rewrite load_after_create, Hexec. by rewrite Hroot.
Qed.

(** X15. Under the same conditions, and when the class has a JSON schema,
    [GET /schemas/{id}] after [POST /schemas] answers with the metadata of the
    request and that JSON schema. *)
Theorem get_schema_after_create uuid now request w namespace model_class
    schema :
  exec_module (generate_pydantic_model_code (def_fields request)
                 (root_name (def_name request) uuid))
  = (namespace, None) →
  namespace !! root_name (def_name request) uuid = Some model_class →
  model_json_schema model_class = Returned schema →
  fst (Main.get_schema uuid (snd (Main.create_schema uuid now request w)))
  = Returned ({| info_id := uuid;
                 info_name := def_name request;
                 info_description := def_description request;
                 info_created_at := now |}, schema).
Proof.
  intros Hexec Hroot Hschema. unfold Main.get_schema, Main.create_schema.
  pose proof (load_after_create uuid now request w) as Hload.
  cbv zeta in Hload. rewrite Hexec, Hroot in Hload.
  destruct (load_schema_model uuid _) as [result w'].
  simpl in Hload. subst result. by rewrite Hschema.
Qed.

(** X16. [GET /schemas] raises for every world: the class [SchemaService] has
    no attribute [list_schemas], and nothing changes. *)
Theorem list_schemas_raises w :
  Main.list_schemas w
  = (Raised (PyError
       (py "type object 'SchemaService' has no attribute 'list_schemas'")),
     w).
Proof. reflexivity. Qed.

End FurtherServices.

(** * Further properties of the extraction *)

Section FurtherExtraction.
Context `{UnicodeData} `{Interpreter} `{!Extractor}.

Lemma run_extractor_effect request dynamic_model model_name w :
  let ran := run_extractor request dynamic_model model_name w in
  programs (snd ran) = programs w
  ∧ metadata (snd ran) = metadata w
  ∧ bytecode (snd ran) = bytecode w
  ∧ modules (snd ran) = modules w
  ∧ sys_modules (snd ran) = sys_modules w
  ∧ llm_calls (snd ran)
    = llm_calls w ++ [(model_name, extraction_prompt (req_text request))]
  ∧ fst ran
    = match invoke dynamic_model model_name (req_api_key request)
              (extraction_prompt (req_text request)) with
      | Returned responses => Returned responses
      | Raised e => Raised (classify e)
      end.
Proof.
  unfold run_extractor.
  change (py "Extract information from this text according to the schema. "
          ++ py "Do not hallucinate anything:" ++ [Chr.LF; Chr.LF]
          ++ req_text request)
    with (extraction_prompt (req_text request)).
  by destruct (invoke _ _ _ _).
Qed.

(** X17. When a schema id is given, the inline fields and the fresh uuid play
    no part: the request with any other fields, under any other uuid, does the
    same. *)
Theorem extract_information_prefers_schema_id uuid uuid' request fields' w :
  truthy_str (req_schema_id request) = true →
  extract_information uuid' (with_fields request fields') w
  = extract_information uuid request w.
Proof.
  unfold extract_information. cbn [with_fields req_schema_id]. intros ->.
  destruct (load_schema_model _ w) as [[[dynamic_model info]|e] w1]; [|done].
  unfold run_extractor. by cbn [with_fields req_text req_api_key].
Qed.


(** X20. An empty schema id and an empty list of fields count as absent: with
    the id absent or empty and the fields absent or empty the request is
    refused with the exception 400, and the world stays as it was. *)
Theorem extract_information_empty_input uuid request w :
  req_schema_id request = None ∨ req_schema_id request = Some [] →
  req_fields request = None ∨ req_fields request = Some [] →
  extract_information uuid request w
  = (Raised (HTTPException 400
               (py "Either schema_id or fields must be provided")), w).
Proof.
  unfold extract_information. by intros [-> | ->] [-> | ->].
Qed.


(** X22. Inline fields whose program runs to its end and binds the temporary
    name [TempModel_{uuid}]: the module of the program is registered in
    [sys.modules] under that name, the extraction library is called once with
    the class and that name as tool choice, and its result is returned, its
    exception going through the handlers. *)
Theorem extract_information_inline uuid request fields w namespace
    dynamic_model :
  let temp_model_name :=
    py "TempModel_" ++ Str.replace Chr.MINUS [Chr.UNDERSCORE] uuid in
  truthy_str (req_schema_id request) = false →
  req_fields request = Some fields →
  fields ≠ [] →
  exec_module (generate_pydantic_model_code fields temp_model_name)
  = (namespace, None) →
  namespace !! temp_model_name = Some dynamic_model →
  let extracting := extract_information uuid request w in
  sys_modules (snd extracting) !! temp_model_name = Some (new_module w)
  ∧ modules (snd extracting) !! new_module w = Some namespace
  ∧ llm_calls (snd extracting)
    = llm_calls w
      ++ [(temp_model_name, extraction_prompt (req_text request))]
  ∧ fst extracting
    = match invoke dynamic_model temp_model_name (req_api_key request)
              (extraction_prompt (req_text request)) with
      | Returned responses => Returned responses
      | Raised e => Raised (classify e)
      end.
Proof.
  intros temp_model_name Hid Hfields Hne Hexec Hroot.
  unfold extract_information. rewrite Hid, Hfields.
  destruct fields as [|f fs]; [done|]. cbn [truthy or_empty].
  fold temp_model_name. rewrite Hexec, Hroot.
  match goal with
  | |- context [run_extractor request dynamic_model ?n ?w1] =>
      destruct (run_extractor_effect request dynamic_model n w1)
        as (_ & _ & _ & Ro & Rs & Rc & Rr)
  end.
  cbv zeta. rewrite Ro, Rs, Rc, Rr. simpl. by rewrite !lookup_insert_eq.
Qed.


End FurtherExtraction.

(** ** Root names *)

Section RootNames.
Context `{UnicodeData}.

Lemma ident_char_continue c :
  ident_char c = true → Str.identifier_continue c = true.
Proof.
  unfold ident_char, Str.identifier_continue, Chr.is_upper, Chr.is_lower,
    Chr.is_digit, Chr.is_ascii, Chr.UNDERSCORE.
  intros Hc.
  assert (c < 128) as Hlt.
  { revert Hc. rewrite !orb_true_iff, !andb_true_iff, !N.leb_le, N.eqb_eq. lia. }
  apply N.ltb_lt in Hlt. by rewrite Hlt.
Qed.

Lemma letter_start c :
  Chr.is_upper c || Chr.is_lower c = true → Str.identifier_start c = true.
Proof.
  unfold Str.identifier_start, Chr.is_upper, Chr.is_lower, Chr.is_ascii.
  intros Hc.
  assert (c < 128) as Hlt.
  { revert Hc. rewrite !orb_true_iff, !andb_true_iff, !N.leb_le. lia. }
  apply N.ltb_lt in Hlt. rewrite Hlt.
  unfold Chr.is_upper, Chr.is_lower in *. by rewrite Hc.
Qed.

Lemma replaced_uuid_ident uuid :
  forallb uuid_char uuid = true →
  forallb ident_char (Str.replace Chr.MINUS [Chr.UNDERSCORE] uuid) = true.
Proof.
  induction uuid as [|c uuid IH]; [done|]. intros Hall. simpl in Hall.
  apply andb_true_iff in Hall as [Hc Hall]. cbn [Str.replace].
  rewrite forallb_app, (IH Hall), andb_true_r.
  destruct (N.eqb_spec c Chr.MINUS) as [->|Hminus]; [done|].
  simpl. rewrite andb_true_r. unfold uuid_char in Hc. unfold ident_char.
  apply orb_true_iff in Hc as [Hc|Hc]; [|by apply N.eqb_eq in Hc].
  apply orb_true_iff in Hc as [Hc|Hc]; [by rewrite Hc, !orb_true_r|].
  assert (Chr.is_lower c = true) as ->; [|by rewrite orb_true_r].
  unfold Chr.is_lower. apply andb_true_iff in Hc as [Hlo Hhi].
  apply N.leb_le in Hlo, Hhi. apply andb_true_iff.
  split; apply N.leb_le; lia.
Qed.

(** X24. For a schema name that the pattern of [SchemaDefinition] admits and
    an id made of hexadecimal digits and hyphens, the root type name shared by
    [create_schema] and [load_schema_model] is an identifier, and so is the
    temporary name of inline fields. *)
Theorem root_name_identifier (schema_name uuid : pystr) :
  name_pattern schema_name = true →
  forallb uuid_char uuid = true →
  Str.isidentifier (root_name schema_name uuid) = true
  ∧ Str.isidentifier
      (py "TempModel_" ++ Str.replace Chr.MINUS [Chr.UNDERSCORE] uuid)
    = true.
Proof.
  intros Hname Huuid.
  assert (forallb Str.identifier_continue
            (Str.replace Chr.MINUS [Chr.UNDERSCORE] uuid) = true) as Htail.
  { apply forallb_forall. intros c Hc. apply ident_char_continue.
    pose proof (replaced_uuid_ident uuid Huuid) as Hall.
    rewrite forallb_forall in Hall. by apply Hall. }
  split.
  - destruct schema_name as [|c rest]; [done|].
    apply andb_true_iff in Hname as [Hc Hrest].
    unfold root_name. cbn [app Str.isidentifier].
    rewrite (letter_start c Hc), !forallb_app, Htail. simpl.
    rewrite andb_true_r. apply forallb_forall. intros d Hd.
    apply ident_char_continue. rewrite forallb_forall in Hrest.
    by apply Hrest.
  - change (py "TempModel_") with [84; 101; 109; 112; 77; 111; 100; 101; 108; 95].
    cbn [app Str.isidentifier forallb]. by rewrite Htail.
Qed.

End RootNames.

(** * Closed examples of the further properties *)

Section FurtherExamples.
#[local] Existing Instance latin1_unicode.
#[local] Existing Instance header_interpreter.
#[local] Existing Instance empty_extractor.

Lemma field_definition_one_line_witness :
  one_line (_generate_field_definition backslash_enum (py "M_path_enum")).
Proof.
  apply (field_definition_one_line backslash_enum (py "M_path_enum"));
    apply one_line_py_literal; reflexivity.
Defined.

Lemma scalar_field_type_witness :
  _get_field_type float_field (py "M")
  ∈ [py "str"; py "int"; py "bool"; py "float"]
  ∧ (type float_field
     ∉ [py "string"; py "int"; py "boolean"; py "float"] →
     _get_field_type float_field (py "M") = py "str").
Proof.
  apply (scalar_field_type float_field (py "M")); reflexivity.
Defined.

Lemma composite_type_is_emitted_witness :
  In (py "M_rows_item") (map name (nested_models_of nested_example (py "M")))
  ∧ _get_field_type nested_example (py "M") = py "List[M_rows_item]".
Proof.
  apply (composite_type_is_emitted nested_example (py "M")); reflexivity.
Defined.

Lemma enum_value_read_back_witness :
  ∃ bodies,
    code (_generate_enum_model quoted_enum (py "M"))
    = py "class " ++ name (_generate_enum_model quoted_enum (py "M"))
      ++ py "(str, Enum):" ++ [Chr.LF]
      ++ Str.join [Chr.LF]
           (zip_with enum_member_line
              (map clean_enum_key [py "it's"; py "b"]) bodies)
    ∧ Forall2 (fun body value => Literal.read Chr.SQUOTE body = Some value)
        bodies [py "it's"; py "b"].
Proof.
  apply (enum_value_read_back quoted_enum (py "M") [py "it's"; py "b"]);
    [reflexivity|].
  repeat (apply List.Forall_cons; [reflexivity|]). apply List.Forall_nil.
Defined.

Lemma clean_enum_key_trailing_punctuation_witness :
  clean_enum_key (py "yes" ++ [33]) = clean_enum_key (py "yes").
Proof.
  apply (clean_enum_key_trailing_punctuation (py "yes") 33). reflexivity.
Defined.




Lemma create_then_load_returns_witness :
  fst (load_schema_model example_id
         (snd (create_schema example_id (py "2025-01-01")
                 (example_request stored_fields) empty_world)))
  = Returned (py "S_0a_1b",
              {| info_id := example_id; info_name := py "S";
                 info_description := py "example";
                 info_created_at := py "2025-01-01" |}).
Proof.
  apply (create_then_load_returns example_id (py "2025-01-01")
           (example_request stored_fields) empty_world
           (fst (exec_module
                   (generate_pydantic_model_code stored_fields (py "S_0a_1b"))))
           (py "S_0a_1b" : @pyobject header_interpreter)); vm_compute; reflexivity.
Defined.

Lemma get_schema_after_create_witness :
  fst (Main.get_schema example_id
         (snd (Main.create_schema example_id (py "2025-01-01")
                 (example_request stored_fields) empty_world)))
  = Returned ({| info_id := example_id; info_name := py "S";
                 info_description := py "example";
                 info_created_at := py "2025-01-01" |}, py "S_0a_1b").
Proof.
  apply (get_schema_after_create example_id (py "2025-01-01")
           (example_request stored_fields) empty_world
           (fst (exec_module
                   (generate_pydantic_model_code stored_fields (py "S_0a_1b"))))
           (py "S_0a_1b" : @pyobject header_interpreter) (py "S_0a_1b")); vm_compute; reflexivity.
Defined.

Lemma extract_information_prefers_schema_id_witness :
  extract_information other_id
    (with_fields (stored_request example_id) (Some stored_fields)) stored_world
  = extract_information example_id (stored_request example_id) stored_world.
Proof.
  apply (extract_information_prefers_schema_id example_id other_id
           (stored_request example_id) (Some stored_fields) stored_world).
  reflexivity.
Defined.


Lemma extract_information_empty_input_witness :
  extract_information example_id
    (with_fields (stored_request []) (Some [])) stored_world
  = (Raised (HTTPException 400
               (py "Either schema_id or fields must be provided")),
     stored_world).
Proof.
  apply (extract_information_empty_input example_id
           (with_fields (stored_request []) (Some [])) stored_world);
    right; reflexivity.
Defined.

Lemma extract_information_inline_witness :
  let extracting := extract_information example_id inline_request stored_world in
  sys_modules (snd extracting) !! py "TempModel_0a_1b"
  = Some (new_module stored_world)
  ∧ llm_calls (snd extracting)
    = [(py "TempModel_0a_1b", extraction_prompt (py "some text"))]
  ∧ fst extracting = Returned [].
Proof.
  intros extracting.
  destruct (extract_information_inline example_id inline_request stored_fields
              stored_world
              (fst (exec_module
                      (generate_pydantic_model_code stored_fields
                         (py "TempModel_0a_1b"))))
              (py "TempModel_0a_1b" : @pyobject header_interpreter))
    as (Hsys & _ & Hcalls & Hresult);
    [reflexivity|reflexivity|discriminate|vm_compute; reflexivity
    |vm_compute; reflexivity|].
  split; [exact Hsys|]. split; [exact Hcalls|exact Hresult].
Defined.

Lemma root_name_identifier_witness :
  Str.isidentifier (root_name (py "S") example_id) = true
  ∧ Str.isidentifier
      (py "TempModel_" ++ Str.replace Chr.MINUS [Chr.UNDERSCORE] example_id)
    = true.
Proof.
  apply (root_name_identifier (py "S") example_id); reflexivity.
Defined.

End FurtherExamples.

Section FailingExamples.
#[local] Existing Instance latin1_unicode.
#[local] Existing Instance rejecting_interpreter.
#[local] Existing Instance rejecting_extractor.


End FailingExamples.
